(** * Fleet induction optimiser: objective/constraint evaluation and result
      extraction

    A shallow embedding of [Optimization_Engine/optimization_engine_v2.py]
    (two objectives) and [Optimization_Engine/optimization_engine_v3.py]
    (three objectives).

    Conventions of the embedding.
    - A numpy/pandas float is a [float]: an exact rational [Num q] or [NaN]
      (a missing value after a left merge, or the quotient 0/0).  Binary
      rounding and the infinities are not represented; every operation is
      the exact one and [NaN] is absorbing, as in IEEE arithmetic.
    - A two-dimensional array is the list of its rows.  The decision
      matrix [x] handed to [_evaluate] by the optimiser holds finite
      numbers, one row per candidate and one column per variable.
    - A data frame is the list of its rows; a column is obtained with
      [map field].  Where the scripts depend on the dtype of a column it
      is represented: an element of a column of booleans is a [flag],
      which tells a numpy boolean from a Python [bool] held by an object
      column, and the column from which [mileage] is read has a [dtype].
    - The scripts pin no pandas release.  The two behaviours they depend
      on and in which releases differ are the fields of a
      [pandas_release], a parameter of the data loading.
    - A raised Python exception is the [Raise] case of [result]; printed
      lines are recorded in a trace of [event]s, an f-string being
      represented by a constructor that carries the interpolated values
      (the values handed to the format specifiers, before formatting).
    - pymoo's [minimize] and numpy's [argsort] are parameters of the
      script that calls them; the plots drawn after the results are
      printed are not represented. *)

From Stdlib Require Import QArith Qround Qminmax Lqa.
From stdpp Require Import base option list strings gmap sorting.

Local Open Scope Q_scope.

(** ** Exceptions *)

Inductive exn : Type :=
  | FileNotFoundError
  | EmptyDataError
  | KeyError
  | TypeError
  | ValueError
  | IndexError
  | SystemExit.

Inductive result (A : Type) : Type :=
  | Ok (a : A)
  | Raise (e : exn).
Arguments Ok {A} a.
Arguments Raise {A} e.

Definition result_bind {A B : Type} (f : A -> result B) (m : result A) : result B :=
  match m with
  | Ok a => f a
  | Raise e => Raise e
  end.

#[global] Instance result_ret : MRet result := fun A a => Ok a.
#[global] Instance result_mbind : MBind result := fun A B f m => result_bind f m.
#[global] Instance result_fmap : FMap result :=
  fun A B f m => result_bind (fun a => Ok (f a)) m.

(** ** Floats *)

Inductive float : Type :=
  | Num (q : Q)
  | NaN.

Definition fadd (a b : float) : float :=
  match a, b with
  | Num p, Num q => Num (p + q)
  | _, _ => NaN
  end.

Definition fsub (a b : float) : float :=
  match a, b with
  | Num p, Num q => Num (p - q)
  | _, _ => NaN
  end.

Definition fmul (a b : float) : float :=
  match a, b with
  | Num p, Num q => Num (p * q)
  | _, _ => NaN
  end.

Definition fneg (a : float) : float :=
  match a with
  | Num p => Num (- p)
  | NaN => NaN
  end.

Definition Qeqb0 (q : Q) : bool := Qeq_bool q 0.

(** Division.  A zero divisor gives a non-finite quotient; the only
    division of the program whose divisor can vanish is the min-max
    normalisation, where the dividend vanishes with it (0/0, a NaN). *)
Definition fdiv (a b : float) : float :=
  match a, b with
  | Num p, Num q => if Qeqb0 q then NaN else Num (p / q)
  | _, _ => NaN
  end.

Definition Qltb (a b : Q) : bool := negb (Qle_bool b a).

Definition isna (a : float) : bool :=
  match a with
  | Num _ => false
  | NaN => true
  end.

(** [rint]: round to the nearest integer, ties to the even one. *)
Definition rint (q : Q) : Z :=
  let f := Qfloor q in
  let r := q - inject_Z f in
  if Qltb r (1 # 2) then f
  else if Qltb (1 # 2) r then (f + 1)%Z
  else if Z.even f then f else (f + 1)%Z.

(** [np.round(q, d)]: scale by [10^d], [rint], scale back. *)
Definition Qround_decimals (d : nat) (q : Q) : Q :=
  inject_Z (rint (q * inject_Z (10 ^ Z.of_nat d))) / inject_Z (10 ^ Z.of_nat d).

Definition fround (d : nat) (a : float) : float :=
  match a with
  | Num q => Num (Qround_decimals d q)
  | NaN => NaN
  end.

(** ** Booleans in a column *)

(** An element of a column of booleans as numpy holds it: an element of
    an array of dtype bool, or a Python [bool] held by an array of dtype
    object. *)
Inductive flag : Type :=
  | np_bool (b : bool)
  | py_bool (b : bool).

(** The truth value of an element; [a == True] compares it. *)
Definition truth (c : flag) : bool :=
  match c with
  | np_bool b => b
  | py_bool b => b
  end.

(** ** pandas releases *)

(** The behaviours of pandas on which a run of the scripts depends and
    in which releases differ.
    - [fillna_downcast]: [fillna] on an object column casts the filled
      column back to bool when every value is a boolean (the releases
      before 3.0); otherwise the column stays an object column (the
      releases from 3.0 on).
    - [round_object_raises]: [Series.round] rejects a column of dtype
      object with [TypeError] (release 2.3.3 does); otherwise it returns
      the column as it is. *)
Record pandas_release : Type := mkRelease {
  fillna_downcast : bool;
  round_object_raises : bool
}.

(** ** numpy and pandas operations used by the two scripts *)

Module np.

(** [np.sum(v)] over a one-dimensional array. *)
Definition sum (v : list float) : float := foldr fadd (Num 0) v.

Definition Qsum (v : list Q) : Q := foldr Qplus 0 v.

(** Element-wise binary operation on two one-dimensional arrays with
    numpy's broadcasting rule: equal lengths, or one operand of
    length one; any other pair of shapes raises [ValueError]. *)
Definition broadcast {A B C : Type} (f : A -> B -> C)
    (u : list A) (v : list B) : result (list C) :=
  if decide (length u = length v) then Ok (zip_with f u v)
  else match u, v with
       | _, [b] => Ok (map (fun a => f a b) u)
       | [a], _ => Ok (map (f a) v)
       | _, _ => Raise ValueError
       end.

(** [np.sum(x * col, axis=1)] for a float column. *)
Definition sum_mul (x : list (list Q)) (col : list float) : result (list float) :=
  mapM (fun row => sum <$> broadcast (fun xi c => fmul (Num xi) c) row col) x.

(** [np.sum(x * col, axis=1)] for a column of booleans: [True] is 1 and
    [False] is 0 in the product, for a numpy boolean and for a Python
    [bool] alike. *)
Definition sum_mul_bool (x : list (list Q)) (col : list bool) : result (list Q) :=
  mapM (fun row =>
          Qsum <$> broadcast (fun xi (c : bool) => xi * (if c then 1 else 0)) row col) x.

(** [~a] on one element.  On an array of dtype bool it is the logical
    negation.  On an array of dtype object numpy applies Python's [~] to
    each element, and a Python [bool] is an [int] there: [~True] is -2
    and [~False] is -1. *)
Definition invert (c : flag) : bool + Z :=
  match c with
  | np_bool b => inl (negb b)
  | py_bool b => inr (Z.lnot (Z.b2z b))
  end.

(** The number by which a boolean or an integer multiplies a float. *)
Definition as_float (v : bool + Z) : Q :=
  match v with
  | inl b => if b then 1 else 0
  | inr z => inject_Z z
  end.

(** [np.sum(x * col, axis=1)] for a column of booleans or integers. *)
Definition sum_mul_items (x : list (list Q)) (col : list (bool + Z)) : result (list Q) :=
  mapM (fun row => Qsum <$> broadcast (fun xi c => xi * as_float c) row col) x.

(** [np.sum(x, axis=1)]. *)
Definition sum_axis1 (x : list (list Q)) : list Q := map Qsum x.

(** [np.where(cond, a, c)] with a scalar third argument. *)
Definition where_ (cond : list bool) (a : list Q) (c : Q) : list Q :=
  zip_with (fun (b : bool) ai => if b then ai else c) cond a.

(** [np.column_stack] of two and of three columns of one length. *)
Definition column_stack2 {A : Type} (c1 c2 : list A) : list (list A) :=
  zip_with (fun a b => [a; b]) c1 c2.

Definition column_stack3 {A : Type} (c1 c2 c3 : list A) : list (list A) :=
  zip_with (fun a bc => a :: bc) c1 (column_stack2 c2 c3).

End np.

(** pandas: reading a file, series reductions, left merge, group-by,
    [fillna], [round], boolean-mask selection and sorting. *)
Module pd.

(** What [pd.read_csv] finds at a path: no file; a file without a header
    line; a file whose header lacks a column that the script reads; or a
    header with these columns and the rows under it. *)
Inductive csv (A : Type) : Type :=
  | Absent
  | Blank
  | Lacking
  | Table (rows : list A).
Arguments Absent {A}.
Arguments Blank {A}.
Arguments Lacking {A}.
Arguments Table {A} rows.

(** [pd.read_csv(path)]: the frame read, [None] standing for a frame
    that lacks a column the script reads. *)
Definition read_csv {A : Type} (file : csv A) : result (option (list A)) :=
  match file with
  | Absent => Raise FileNotFoundError
  | Blank => Raise EmptyDataError
  | Lacking => Ok None
  | Table rows => Ok (Some rows)
  end.

(** [df[column]], [groupby(column)] and [merge(..., on=column)]: a
    column that the frame lacks raises [KeyError]. *)
Definition columns_of {A : Type} (frame : option (list A)) : result (list A) :=
  match frame with
  | Some rows => Ok rows
  | None => Raise KeyError
  end.

(** The dtype of a column that holds numbers or missing values:
    [read_csv] gives it a numeric dtype when the file has rows, and the
    dtype object when the file has its header only. *)
Inductive dtype : Type :=
  | float64
  | object.

Definition finite_values (col : list float) : list Q :=
  omap (fun a => match a with Num q => Some q | NaN => None end) col.

(** [Series.min()] and [Series.max()]: missing values are skipped; the
    result is NaN when nothing is left. *)
Definition min (col : list float) : float :=
  match finite_values col with
  | [] => NaN
  | q :: qs => Num (foldr Qmin q qs)
  end.

Definition max (col : list float) : float :=
  match finite_values col with
  | [] => NaN
  | q :: qs => Num (foldr Qmax q qs)
  end.

(** [pd.merge(left, right, on='trainsetId', how='left')], the right
    frame having one column besides the key: every left row is kept, in
    order, once per matching right row, or once with a missing value. *)
Definition merge_left {L V : Type} (key : L -> string)
    (left : list L) (right : list (string * V)) : list (L * option V) :=
  flat_map (fun l =>
    match filter (fun kv => kv.1 = key l) right with
    | [] => [(l, None)]
    | ms => map (fun kv => (l, Some kv.2)) ms
    end) left.

(** [groupby('trainsetId')[col].agg()] followed by [reset_index()]: one
    row per distinct key.  pandas sorts the keys; the left merges that
    consume the result do not observe their order. *)
Definition groupby_agg {V W : Type} (agg : list V -> W)
    (rows : list (string * V)) : list (string * W) :=
  map (fun k => (k, agg (map snd (filter (fun kv => kv.1 = k) rows))))
      (remove_dups (map fst rows)).

Definition notna {A : Type} (c : option A) : bool :=
  match c with
  | Some _ => true
  | None => false
  end.

(** [col.fillna(False)] on a column of booleans that went through a left
    merge.  The merge keeps the dtype bool when every row found its
    match and gives the dtype object when it left a value missing.
    Filling an object column gives Python [bool]s in an object column,
    unless the release casts the filled column back to bool. *)
Definition fillna_False (rel : pandas_release) (col : list (option bool)) : list flag :=
  if forallb notna col || fillna_downcast rel
  then map (fun c => np_bool (default false c)) col
  else map (fun c => py_bool (default false c)) col.

(** [col.round(decimals)] on a column of the given dtype. *)
Definition round (rel : pandas_release) (decimals : nat) (dt : dtype) (col : list float)
    : result (list float) :=
  match dt with
  | float64 => Ok (map (fround decimals) col)
  | object => if round_object_raises rel then Raise TypeError else Ok col
  end.

(** [frame[mask]] for a boolean array [mask]: a mask of the wrong
    length raises [ValueError]. *)
Definition getitem_mask {A : Type} (frame : list A) (mask : list bool)
    : result (list A) :=
  if decide (length mask = length frame)
  then Ok (map fst (filter (fun rb => rb.2 = true) (zip frame mask)))
  else Raise ValueError.

(** [frame.sort_values(by=key)], ascending.  pandas sorts the positions
    of the rows whose key is not missing with numpy's [argsort] on their
    keys and takes the rows at these positions; the rows whose key is
    missing follow, in frame order.  [argsort] is of kind 'quicksort',
    which leaves the order of equal keys open: it is a parameter. *)
Definition non_nans {A : Type} (key : A -> float) (frame : list A) : list (Q * A) :=
  omap (fun r => match key r with Num q => Some (q, r) | NaN => None end) frame.

Definition sort_values {A : Type} (argsort : list Q -> list nat) (key : A -> float)
    (frame : list A) : list A :=
  let nans := filter (fun r => isna (key r) = true) frame in
  let indexer := argsort (map fst (non_nans key frame)) in
  omap (fun i => snd <$> non_nans key frame !! i) indexer ++ nans.

End pd.

(** Order of [sort_values]: ascending, missing values last. *)
Definition fle (a b : float) : Prop :=
  match a, b with
  | Num p, Num q => p <= q
  | _, NaN => True
  | NaN, Num _ => False
  end.

#[global] Instance fle_dec (a b : float) : Decision (fle a b).
Proof.
  destruct a as [p|], b as [q|]; simpl;
    [destruct (Qlt_le_dec q p) as [H|H];
       [right; apply Qlt_not_le, H | left; exact H]
    | left; exact I | right; tauto | left; exact I].
Defined.

(** Lines 47-50 of v2 and 47-49 of v3: the columns [mileage_norm] and
    [punctuality_score], before rounding, computed from the column
    [mileage]. *)
Definition mileage_norm_column (mileage : list float) : list float :=
  let min_mileage := pd.min mileage in
  let max_mileage := pd.max mileage in
  map (fun m => fdiv (fsub m min_mileage) (fsub max_mileage min_mileage)) mileage.

Definition punctuality_score_column (mileage : list float) : list float :=
  map (fun n => fsub (Num 100) (fmul n (Num 5))) (mileage_norm_column mileage).

(** ** Scripts: printed lines and exceptions *)

(** A script run is the trace of its events and how it ended: normally
    with a value, or with an exception ([exit()] raises [SystemExit]). *)
Definition script (E A : Type) : Type := (list E * result A)%type.

Definition script_bind {E A B : Type} (f : A -> script E B) (m : script E A)
    : script E B :=
  match m.2 with
  | Ok a => (m.1 ++ (f a).1, (f a).2)
  | Raise e => (m.1, Raise e)
  end.

#[global] Instance script_ret {E : Type} : MRet (script E) := fun A a => ([], Ok a).
#[global] Instance script_mbind {E : Type} : MBind (script E) :=
  fun A B f m => script_bind f m.

Definition emit {E : Type} (e : E) : script E unit := ([e], Ok tt).

Definition lift {E A : Type} (r : result A) : script E A := ([], r).

(** A [for] loop over a list. *)
Definition for_ {E A : Type} (l : list A) (body : A -> script E unit) : script E unit :=
  foldr (fun a k => body a;; k) (mret tt) l.

(** [enumerate(l)]. *)
Definition enumerate {A : Type} (l : list A) : list (nat * A) := imap pair l.

(** [a[i]] on a one-dimensional array. *)
Definition getitem {A : Type} (a : list A) (i : nat) : result A :=
  match a !! i with
  | Some v => Ok v
  | None => Raise IndexError
  end.

(** [solution_vars.astype(bool)]: every non-zero number is [True]. *)
Definition astype_bool (v : list Q) : list bool := map (fun q => negb (Qeqb0 q)) v.

(** The dictionary [out] filled by [_evaluate]: array name to array. *)
Abbreviation dict := (gmap string (list (list float))).

Definition N_TO_SELECT : Q := 15.

(** Element type of the decision variables declared to pymoo. *)
Inductive vtype_t : Type :=
  | vtype_bool
  | vtype_float.

(** The arguments of pymoo's [Problem.__init__] and the attribute [df]
    that the two subclasses add. *)
Record Problem (Row : Type) : Type := mkProblem {
  n_var : nat;
  n_obj : nat;
  n_constr : nat;
  xl : Q;
  xu : Q;
  vtype : vtype_t;
  df : list Row
}.
Arguments mkProblem {Row} _ _ _ _ _ _ _.
Arguments n_var {Row} _.
Arguments n_obj {Row} _.
Arguments n_constr {Row} _.
Arguments xl {Row} _.
Arguments xu {Row} _.
Arguments vtype {Row} _.
Arguments df {Row} _.

(** pymoo's [Result]: [X] and [F] are [None] when the final population
    holds no feasible individual. *)
Record Result : Type := mkResult {
  X : option (list (list Q));
  F : option (list (list float))
}.

(** ** The two-objective script *)

Module V2.

(** A row of [trainsets.csv]; its other columns are carried through the
    merges and never read. *)
Record Trainset : Type := mkTrainset {
  ts_trainsetId : string
}.

(** A row of [health_and_maintenance.csv], the columns the script reads.
    A cell of [isClear] holds a boolean or is empty; a cell of [value]
    holds a number or is empty. *)
Record HealthRecord : Type := mkHealthRecord {
  hm_trainsetId : string;
  category : string;
  department : string;
  isClear : option bool;
  status : string;
  value : float
}.

(** The two files under [base_path]. *)
Record Files : Type := mkFiles {
  trainsets_csv : pd.csv Trainset;
  health_and_maintenance_csv : pd.csv HealthRecord
}.

(** A row of the processed [train_df].  The script multiplies and
    compares the column [job_card_open], which gives the same for a
    numpy boolean and for a Python [bool]: the field is the truth value.
    It inverts the column [fitness_certificate_valid]: the field is the
    element as numpy holds it. *)
Record Row : Type := mkRow {
  trainsetId : string;
  mileage : float;
  job_card_open : bool;
  fitness_certificate_valid : flag;
  mileage_norm : float;
  punctuality_score : float
}.

Definition open_statuses : list string := ["Open"; "In Progress"].

(** Steps 2 and 3 of the data loading: the summaries drawn from
    [hm_df] and the three left merges into [train_df]. *)
Definition merge_frames (train_df : list Trainset) (hm_df : list HealthRecord)
    : list (Trainset * option float * option bool * option bool) :=
  let mileage_df :=
    map (fun r => (hm_trainsetId r, value r))
        (filter (fun r => category r = "Mileage") hm_df) in
  let job_cards_df :=
    map (fun r => (hm_trainsetId r, bool_decide (status r ∈ open_statuses)))
        (filter (fun r => category r = "Job Card") hm_df) in
  let open_cards_summary := pd.groupby_agg (existsb id) job_cards_df in
  let certs_df := filter (fun r => category r = "Fitness Certificate") hm_df in
  let rolling_stock_certs := filter (fun r => department r = "Rolling-Stock") certs_df in
  let certs_summary :=
    pd.groupby_agg (forallb (default true))
      (map (fun r => (hm_trainsetId r, isClear r)) rolling_stock_certs) in
  let train_df := pd.merge_left ts_trainsetId train_df mileage_df in
  let train_df := pd.merge_left (fun r => ts_trainsetId r.1) train_df open_cards_summary in
  pd.merge_left (fun r => ts_trainsetId r.1.1) train_df certs_summary.

(** The merged mileage: missing when no mileage record matched. *)
Definition merged_mileage (r : Trainset * option float * option bool * option bool)
    : float :=
  default NaN r.1.1.2.

(** The dtype of the column [value] of [hm_df], which the column
    [mileage] and the columns computed from it inherit. *)
Definition value_dtype (hm_df : list HealthRecord) : pd.dtype :=
  match hm_df with
  | [] => pd.object
  | _ => pd.float64
  end.

(** Steps 2 to 4 of the data loading: after the merges, the two
    [fillna(False)] and the punctuality score. *)
Definition process (rel : pandas_release) (train_df : list Trainset)
    (hm_df : list HealthRecord) : result (list Row) :=
  let dt := value_dtype hm_df in
  let train_df := merge_frames train_df hm_df in
  let fitness_certificate_valid := pd.fillna_False rel (map snd train_df) in
  let mileage := map merged_mileage train_df in
  punctuality_score ← pd.round rel 2 dt (punctuality_score_column mileage);
  Ok (zip_with
        (fun r c =>
           mkRow (ts_trainsetId r.1.1.1) (merged_mileage r)
                 (default false r.1.2) c.1 c.2.1 c.2.2)
        train_df
        (zip fitness_certificate_valid
             (zip (mileage_norm_column mileage) punctuality_score))).

Definition TrainSchedulingProblem (df : list Row) : Problem Row :=
  mkProblem (length df) 2 3 0 1 vtype_bool df.

(** [TrainSchedulingProblem._evaluate]: the state is the problem
    object and the dictionary [out]; both are returned. *)
Definition _evaluate (x : list (list Q)) (st : Problem Row * dict)
    : result (Problem Row * dict) :=
  let '(self, out) := st in
  f1 ← np.sum_mul x (map mileage (df self));
  punctuality_scores ← np.sum_mul x (map punctuality_score (df self));
  let safe_divisor :=
    np.where_ (map (Qltb 0) (np.sum_axis1 x)) (np.sum_axis1 x) 1 in
  let avg_punctuality :=
    zip_with (fun p d => fdiv p (Num d)) punctuality_scores safe_divisor in
  let f2 := map (fsub (Num 100)) avg_punctuality in
  let g1 := map (fun s => (s - N_TO_SELECT) ^ 2) (np.sum_axis1 x) in
  g2 ← np.sum_mul_bool x (map job_card_open (df self));
  g3 ← np.sum_mul_items x (map np.invert (map fitness_certificate_valid (df self)));
  let out := <["F" := np.column_stack2 f1 f2]> out in
  let out := <["G" := np.column_stack3 (map Num g1) (map Num g2) (map Num g3)]> out in
  Ok (self, out).

(** What the script prints; an f-string is a constructor carrying the
    interpolated values. *)
Inductive line : Type :=
  | L_text (s : string)
  | L_final_processed (len_train_df : nat)
  | L_head (rows : list Row)
  | L_error_files
  | L_eligible (len_eligible_trains : nat)
  | L_found (len_F : nat)
  | L_solution (number : nat)
  | L_cost (v : float)                 (* {:.0f} *)
  | L_punctuality (v : float)          (* {:.2f}% *)
  | L_selected_trains (rows : list (string * float * float)).

Inductive event : Type :=
  | Print (l : line)
  | Minimize (problem : Problem Row) (pop_size n_gen seed : nat).

(** Section 1: loading inside [try], [except FileNotFoundError].  The
    columns of [hm_df] are first read at line 20 and the merge of line 36
    reads the column [trainsetId] of [train_df]. *)
Definition load (rel : pandas_release) (fs : Files) : script event (list Row) :=
  match
    train_df ← pd.read_csv (trainsets_csv fs);
    hm_df ← pd.read_csv (health_and_maintenance_csv fs);
    hm_df ← pd.columns_of hm_df;
    train_df ← pd.columns_of train_df;
    process rel train_df hm_df
  with
  | Ok train_df =>
      emit (Print (L_text "--- Data Processing Complete ---"));;
      emit (Print (L_final_processed (length train_df)));;
      emit (Print (L_head (take 5 train_df)));;
      emit (Print (L_text "--------------------------------"));;
      mret train_df
  | Raise FileNotFoundError =>
      emit (Print L_error_files);;
      lift (Raise SystemExit)
  | Raise e => lift (Raise e)
  end.

Definition mileage_le (r1 r2 : Row) : Prop := fle (mileage r1) (mileage r2).

#[global] Instance mileage_le_dec (r1 r2 : Row) : Decision (mileage_le r1 r2) :=
  fle_dec (mileage r1) (mileage r2).

(** Section 4 up to the plot. *)
Definition print_results (argsort : list Q -> list nat) (train_df : list Row)
    (res : Result) : script event unit :=
  emit (Print (L_text "--- Optimization Results ---"));;
  let eligible_trains :=
    filter (fun r => job_card_open r = false ∧ truth (fitness_certificate_valid r) = true)
           train_df in
  emit (Print (L_eligible (length eligible_trains)));;
  match X res with
  | None =>
      emit (Print (L_text
        "Could not find any valid solution. The constraints might still be too strict."))
  | Some res_X =>
      res_F ← lift (match F res with Some a => Ok a | None => Raise TypeError end);
      emit (Print (L_found (length res_F)));;
      for_ (enumerate (zip res_X res_F))
        (fun '(i, (solution_vars, solution_objectives)) =>
           emit (Print (L_solution (i + 1)));;
           o0 ← lift (getitem solution_objectives 0);
           emit (Print (L_cost o0));;
           o1 ← lift (getitem solution_objectives 1);
           emit (Print (L_punctuality (fsub (Num 100) o1)));;
           selected ← lift (pd.getitem_mask train_df (astype_bool solution_vars));
           let selected_trains := pd.sort_values argsort mileage selected in
           emit (Print (L_text "Selected Trains:"));;
           emit (Print (L_selected_trains
             (map (fun r => (trainsetId r, mileage r, punctuality_score r))
                  selected_trains))))
  end.

(** The whole script; [minimize] is pymoo's optimiser, called with
    [NSGA2(pop_size=200)], [('n_gen', 400)] and [seed=1]. *)
Definition main (rel : pandas_release) (argsort : list Q -> list nat) (fs : Files)
    (minimize : Problem Row -> result Result) : script event unit :=
  train_df ← load rel fs;
  let problem := TrainSchedulingProblem train_df in
  emit (Minimize problem 200 400 1);;
  res ← lift (minimize problem);
  print_results argsort train_df res.

End V2.

(** ** The three-objective script *)

Module V3.

Record Row : Type := mkRow {
  trainsetId : string;
  mileage : float;
  job_card_open : bool;
  fitness_certificate_valid : flag;
  branding_priority_score : Q;
  mileage_norm : float;
  punctuality_score : float
}.

(** A row of [train_df] after the four left merges: the merged columns
    may hold missing values. *)
Record Merged : Type := mkMerged {
  m_trainsetId : string;
  m_mileage : float;
  m_job_card_open : option bool;
  m_fitness_certificate_valid : option bool;
  m_branding_priority_score : float
}.

(** [fillna(0)] on a float column. *)
Definition fillna0 (a : float) : Q :=
  match a with
  | Num q => q
  | NaN => 0
  end.

(** "Final Cleanup", lines 44-50; [mileage_dtype] is the dtype of the
    column [mileage] of the merged frame. *)
Definition final_cleanup (rel : pandas_release) (mileage_dtype : pd.dtype)
    (train_df : list Merged) : result (list Row) :=
  let fitness_certificate_valid :=
    pd.fillna_False rel (map m_fitness_certificate_valid train_df) in
  let mileage := map m_mileage train_df in
  punctuality_score ← pd.round rel 2 mileage_dtype (punctuality_score_column mileage);
  Ok (zip_with
        (fun r c =>
           mkRow (m_trainsetId r) (m_mileage r)
                 (default false (m_job_card_open r)) c.1
                 (fillna0 (m_branding_priority_score r)) c.2.1 c.2.2)
        train_df
        (zip fitness_certificate_valid
             (zip (mileage_norm_column mileage) punctuality_score))).

Definition TrainSchedulingProblemV3 (df : list Row) : Problem Row :=
  mkProblem (length df) 3 3 0 1 vtype_bool df.

(** [TrainSchedulingProblemV3._evaluate]. *)
Definition _evaluate (x : list (list Q)) (st : Problem Row * dict)
    : result (Problem Row * dict) :=
  let '(self, out) := st in
  f1 ← np.sum_mul x (map mileage (df self));
  punctuality_scores ← np.sum_mul x (map punctuality_score (df self));
  let safe_divisor :=
    np.where_ (map (Qltb 0) (np.sum_axis1 x)) (np.sum_axis1 x) 1 in
  let avg_punctuality :=
    zip_with (fun p d => fdiv p (Num d)) punctuality_scores safe_divisor in
  let f2 := map (fsub (Num 100)) avg_punctuality in
  f3 ← fmap (map fneg)
         (np.sum_mul x (map (fun r => Num (branding_priority_score r)) (df self)));
  let g1 := map (fun s => (s - N_TO_SELECT) ^ 2) (np.sum_axis1 x) in
  g2 ← np.sum_mul_bool x (map job_card_open (df self));
  g3 ← np.sum_mul_items x (map np.invert (map fitness_certificate_valid (df self)));
  let out := <["F" := np.column_stack3 f1 f2 f3]> out in
  let out := <["G" := np.column_stack3 (map Num g1) (map Num g2) (map Num g3)]> out in
  Ok (self, out).

Inductive line : Type :=
  | L_text (s : string)
  | L_fleet (number : nat)
  | L_performance (mileage punctuality_score branding_score : float)
      (* {:.0f}, {:.2f}%, {:.2f} *)
  | L_selected (len_selected_ids : nat) (selected_ids : list string).

Inductive event : Type :=
  | Print (l : line).

(** [a[i, j]] on a two-dimensional array. *)
Definition getitem2 {A : Type} (a : list (list A)) (i j : nat) : result A :=
  row ← getitem a i; getitem row j.

(** [res.F[i, j]] where [res.F] may be [None]. *)
Definition subscript (a : option (list (list float))) (i j : nat) : result float :=
  match a with
  | Some a => getitem2 a i j
  | None => Raise TypeError
  end.

(** Section 4, "Extract and Display Optimal Train Sets". *)
Definition analysis (train_df : list Row) (res : Result) : script event unit :=
  emit (Print (L_text "--- Optimal Solutions Analysis ---"));;
  let optimal_solutions_floats := X res in
  let optimal_objectives := F res in
  solutions ← lift (match optimal_solutions_floats with
                    | Some a => Ok (enumerate a)
                    | None => Raise TypeError
                    end);
  for_ solutions
    (fun '(i, solution_float_mask) =>
       let solution_mask := map (Qltb (1 # 2)) solution_float_mask in
       selected_trains_df ← lift (pd.getitem_mask train_df solution_mask);
       let selected_ids := map trainsetId selected_trains_df in
       mileage ← lift (subscript optimal_objectives i 0);
       o1 ← lift (subscript optimal_objectives i 1);
       let punctuality_score := fsub (Num 100) o1 in
       o2 ← lift (subscript optimal_objectives i 2);
       let branding_score := fneg o2 in
       emit (Print (L_fleet (i + 1)));;
       emit (Print (L_performance mileage punctuality_score branding_score));;
       emit (Print (L_selected (length selected_ids) selected_ids)));;
  emit (Print (L_text "----------------------------------")).

End V3.

(** ** Vocabulary of the specification *)

(** A candidate is a bit-string; the optimiser's array holds 1 for a set
    bit and 0 for a clear one. *)
Definition encode (bits : list bool) : list Q :=
  map (fun b : bool => if b then 1 else 0) bits.

(** The units of a table selected by a bit-string, in table order. *)
Definition selected {A : Type} (bits : list bool) (units : list A) : list A :=
  map fst (filter (fun ub => ub.2 = true) (zip units bits)).

(** The number carried by a float that is not NaN. *)
Definition to_Q (a : float) : Q :=
  match a with
  | Num q => q
  | NaN => 0
  end.

Definition finite (a : float) : Prop :=
  match a with
  | Num _ => True
  | NaN => False
  end.

(** [is_num a q]: the float [a] is the number [q]. *)
Definition is_num (a : float) (q : Q) : Prop :=
  match a with
  | Num p => p == q
  | NaN => False
  end.

Definition Qlen {A : Type} (l : list A) : Q := inject_Z (Z.of_nat (length l)).

(** Mean of a list of numbers, the mean of no number being 0. *)
Definition mean (l : list Q) : Q :=
  match l with
  | [] => 0
  | _ => np.Qsum l / Qlen l
  end.

Definition sum_over {A : Type} (f : A -> Q) (units : list A) : Q :=
  np.Qsum (map f units).

Definition mean_over {A : Type} (f : A -> Q) (units : list A) : Q :=
  mean (map f units).

(** Number of units with a given value of a boolean flag. *)
Definition count_flag {A : Type} (flag : A -> bool) (v : bool) (units : list A) : Q :=
  Qlen (filter (fun u => flag u = v) units).

(** A FleetUnit table: wear metric and punctuality score are numbers. *)
Definition fleet_table_v2 (table : list V2.Row) : Prop :=
  Forall (fun u => finite (V2.mileage u) /\ finite (V2.punctuality_score u)) table.

Definition fleet_table_v3 (table : list V3.Row) : Prop :=
  Forall (fun u => finite (V3.mileage u) /\ finite (V3.punctuality_score u)) table.

(** The two kinds of column of booleans: of dtype bool, every element a
    numpy boolean; of dtype object, every element a Python [bool]. *)
Definition bool_column {A : Type} (col : A -> flag) (table : list A) : Prop :=
  Forall (fun u => col u = np_bool (truth (col u))) table.

Definition object_column {A : Type} (col : A -> flag) (table : list A) : Prop :=
  Forall (fun u => col u = py_bool (truth (col u))) table.

(** A trainset has a Rolling-Stock fitness certificate on record. *)
Definition has_rolling_stock_certificate (hm_df : list V2.HealthRecord) (id : string)
    : Prop :=
  Exists (fun r => V2.hm_trainsetId r = id /\
                   V2.category r = "Fitness Certificate" /\
                   V2.department r = "Rolling-Stock") hm_df.

(** The shape [(pop, n)] of a two-dimensional array. *)
Definition columns {A : Type} (n : nat) (x : list (list A)) : Prop :=
  Forall (fun row => length row = n) x.

(** An extracted solution: a bit-string with its stored objective
    values; the rows of [res.X] and [res.F] it stands for. *)
Definition objective_row2 (o : Q * Q) : list float := [Num o.1; Num o.2].

Definition objective_row3 (o : Q * Q * Q) : list float :=
  [Num o.1.1; Num o.1.2; Num o.2].

Definition result_v2 (sols : list (list bool * (Q * Q))) : Result :=
  mkResult (Some (map (fun s => encode s.1) sols))
           (Some (map (fun s => objective_row2 s.2) sols)).

Definition result_v3 (sols : list (list bool * (Q * Q * Q))) : Result :=
  mkResult (Some (map (fun s => encode s.1) sols))
           (Some (map (fun s => objective_row3 s.2) sols)).

(** The result of a run that ends without a feasible individual. *)
Definition no_feasible : Result := mkResult None None.

(** A float with its fraction in lowest terms. *)
Definition normalise (a : float) : float :=
  match a with
  | Num q => Num (Qred q)
  | NaN => NaN
  end.

(** The array stored under [key] by a run of [_evaluate], fractions in
    lowest terms. *)
Definition stored {S : Type} (key : string) (r : result (S * dict))
    : result (option (list (list float))) :=
  (fun st => map (map normalise) <$> st.2 !! key) <$> r.



(** [s] is [q] rounded to two decimals: a whole number of hundredths, at
    most half a hundredth away from [q], and an even number of
    hundredths when [q] lies half-way between two. *)
Definition rounded_2 (q s : Q) : Prop :=
  exists z : Z,
    s * 100 == inject_Z z /\
    - (1 # 200) <= s - q <= 1 # 200 /\
    (s - q == 1 # 200 \/ q - s == 1 # 200 -> Z.even z = true).

(** What numpy's [argsort] guarantees: the positions of the array, each
    once, the values at these positions being in ascending order. *)
Definition argsort_spec (argsort : list Q -> list nat) : Prop :=
  forall v : list Q,
    argsort v ≡ₚ seq 0 (length v) /\
    Sorted Qle (omap (fun i => v !! i) (argsort v)).

(** An [argsort]: a merge sort of the positions by their values. *)
Definition key_le (a b : nat * Q) : Prop := a.2 <= b.2.

#[global] Instance key_le_dec (a b : nat * Q) : Decision (key_le a b).
Proof.
  unfold key_le. destruct (Qlt_le_dec b.2 a.2) as [H|H];
    [right; apply Qlt_not_le, H | left; exact H].
Defined.

Definition merge_argsort (v : list Q) : list nat :=
  map fst (merge_sort key_le (imap pair v)).

(** ** Closed forms of the rows computed by [_evaluate] *)

Definition row_sum_mul (col : list float) (row : list Q) : float :=
  np.sum (zip_with (fun xi c => fmul (Num xi) c) row col).

Definition row_sum_mul_bool (col : list bool) (row : list Q) : Q :=
  np.Qsum (zip_with (fun xi (c : bool) => xi * (if c then 1 else 0)) row col).

Definition row_sum_mul_items (col : list (bool + Z)) (row : list Q) : Q :=
  np.Qsum (zip_with (fun xi c => xi * np.as_float c) row col).

Definition safe_divisor_of (row : list Q) : Q :=
  if Qltb 0 (np.Qsum row) then np.Qsum row else 1.

Definition objective12 (mileage punctuality : list float) (row : list Q) : list float :=
  [ row_sum_mul mileage row;
    fsub (Num 100) (fdiv (row_sum_mul punctuality row) (Num (safe_divisor_of row))) ].

Definition objective123 (mileage punctuality branding : list float) (row : list Q)
    : list float :=
  [ row_sum_mul mileage row;
    fsub (Num 100) (fdiv (row_sum_mul punctuality row) (Num (safe_divisor_of row)));
    fneg (row_sum_mul branding row) ].

Definition constraint_row (job_card_open : list bool) (valid : list flag) (row : list Q)
    : list float :=
  [ Num ((np.Qsum row - N_TO_SELECT) ^ 2);
    Num (row_sum_mul_bool job_card_open row);
    Num (row_sum_mul_items (map np.invert valid) row) ].

(** ** A small fleet used to instantiate the theorems *)

Definition scenario_v2 : list V2.Row :=
  [ V2.mkRow "A" (Num 100) false (np_bool true) (Num 1) (Num 90);
    V2.mkRow "B" (Num 50) false (np_bool true) (Num 0) (Num 80);
    V2.mkRow "C" (Num 70) true (np_bool true) (Num (2 # 5)) (Num 85);
    V2.mkRow "D" (Num 60) false (np_bool false) (Num (1 # 5)) (Num 88);
    V2.mkRow "E" (Num 80) false (np_bool true) (Num (3 # 5)) (Num 95) ].

Definition scenario_v3 : list V3.Row :=
  [ V3.mkRow "A" (Num 100) false (np_bool true) 3 (Num 1) (Num 90);
    V3.mkRow "B" (Num 50) false (np_bool true) 0 (Num 0) (Num 80);
    V3.mkRow "C" (Num 70) true (np_bool true) (7 # 2) (Num (2 # 5)) (Num 85);
    V3.mkRow "D" (Num 60) false (np_bool false) 9999 (Num (1 # 5)) (Num 88);
    V3.mkRow "E" (Num 80) false (np_bool true) 1 (Num (3 # 5)) (Num 95) ].

Definition scenario_bits : list (list bool) :=
  [ [true; true; false; false; false];
    [false; false; false; false; false] ].

(** A candidate array with fractional entries. *)
Definition scenario_x : list (list Q) :=
  [ [1 # 4; 3 # 4; 1; 0; 1 # 2] ].

Definition scenario_fractional : list Q := [1 # 4; 3 # 4; 1; 0; 1 # 2].

Definition scenario_solutions_v2 : list (list bool * (Q * Q)) :=
  [ ([true; true; false; false; false], (150, 15)) ].

Definition scenario_solutions_v3 : list (list bool * (Q * Q * Q)) :=
  [ ([true; true; false; false; false], (150, 15, -3)) ].

(** Input files of the two-objective script: three trainsets, one of
    them without any health record. *)
Definition scenario_trainsets : list V2.Trainset :=
  [ V2.mkTrainset "TS01"; V2.mkTrainset "TS02"; V2.mkTrainset "TS03" ].

Definition scenario_health : list V2.HealthRecord :=
  [ V2.mkHealthRecord "TS01" "Mileage" "" None "" (Num 100000);
    V2.mkHealthRecord "TS01" "Job Card" "" None "Open" NaN;
    V2.mkHealthRecord "TS01" "Fitness Certificate" "Rolling-Stock" (Some true) "" NaN;
    V2.mkHealthRecord "TS02" "Mileage" "" None "" (Num 180000);
    V2.mkHealthRecord "TS02" "Job Card" "" None "Closed" NaN;
    V2.mkHealthRecord "TS02" "Fitness Certificate" "Rolling-Stock" (Some true) "" NaN;
    V2.mkHealthRecord "TS02" "Fitness Certificate" "Telecom" (Some false) "" NaN ].



(** Two candidates over the three trainsets: the first two, and the last. *)
Definition scenario_candidates : list (list bool) :=
  [ [true; true; false]; [false; false; true] ].

(** A release that casts a filled column back to bool, and one that
    leaves it an object column. *)
Definition release_downcast : pandas_release := mkRelease true true.

Definition release_no_downcast : pandas_release := mkRelease false true.

Definition scenario_merged : list V3.Merged :=
  [ V3.mkMerged "TS01" (Num 100000) (Some true) (Some true) (Num (5 # 2));
    V3.mkMerged "TS02" (Num 180000) (Some false) (Some true) NaN;
    V3.mkMerged "TS03" NaN None None NaN ].

(** * Properties *)

(** ** Lists *)

Section list_facts.
Context {A B C D : Type}.

Lemma zip_with_map_map (f : B -> C -> D) (g : A -> B) (h : A -> C) (l : list A) :
  zip_with f (map g l) (map h l) = map (fun a => f (g a) (h a)) l.
Proof. induction l as [|a l IH]; [reflexivity|]. cbn. f_equal. exact IH. Qed.

Lemma map_zip_with_l (f : C -> D) (g : A -> B -> C) (h : A -> D)
    (l : list A) (k : list B) :
  (forall a b, f (g a b) = h a) -> length l = length k ->
  map f (zip_with g l k) = map h l.
Proof.
  intros Hf. revert k. induction l as [|a l IH]; intros [|b k] Hlen;
    try discriminate; [reflexivity|].
  cbn. rewrite Hf. f_equal. apply IH. injection Hlen as Hlen. exact Hlen.
Qed.

Lemma map_zip_with_r (f : C -> D) (g : A -> B -> C) (h : B -> D)
    (l : list A) (k : list B) :
  (forall a b, f (g a b) = h b) -> length l = length k ->
  map f (zip_with g l k) = map h k.
Proof.
  intros Hf. revert k. induction l as [|a l IH]; intros [|b k] Hlen;
    try discriminate; [reflexivity|].
  cbn. rewrite Hf. f_equal. apply IH. injection Hlen as Hlen. exact Hlen.
Qed.

Lemma Forall2_map_r_diag (P : A -> B -> Prop) (g : A -> B) (l : list A) :
  Forall (fun a => P a (g a)) l -> Forall2 P l (map g l).
Proof. induction 1; constructor; done. Qed.

Lemma Forall2_map_map_diag (P : B -> C -> Prop)
    (f : A -> B) (g : A -> C) (l : list A) :
  Forall2 P (map f l) (map g l) -> Forall (fun a => P (f a) (g a)) l.
Proof.
  induction l as [|a l IH]; cbn; intros H; [constructor|].
  inversion H; subst. constructor; [done|]. apply IH. done.
Qed.

End list_facts.

Lemma zip_map_map {A B C : Type} (g : A -> B) (h : A -> C) (l : list A) :
  zip (map g l) (map h l) = map (fun a => (g a, h a)) l.
Proof. apply zip_with_map_map. Qed.

(** ** Rational numbers *)

Lemma Qltb_true a b : Qltb a b = true <-> a < b.
Proof.
  unfold Qltb. rewrite negb_true_iff. split.
  - intros H. apply Qnot_le_lt. intros Hle. apply Qle_bool_iff in Hle. congruence.
  - intros H. destruct (Qle_bool b a) eqn:E; [|reflexivity].
    apply Qle_bool_iff in E. lra.
Qed.

Lemma Qltb_false a b : Qltb a b = false <-> b <= a.
Proof.
  unfold Qltb. rewrite negb_false_iff. apply Qle_bool_iff.
Qed.

Lemma Qeqb0_false q : ~ q == 0 -> Qeqb0 q = false.
Proof.
  intros H. unfold Qeqb0. destruct (Qeq_bool q 0) eqn:E; [|reflexivity].
  apply Qeq_bool_iff in E. contradiction.
Qed.

Lemma Qsquare_nonneg (a : Q) : 0 <= a ^ 2.
Proof. simpl. nra. Qed.

Lemma Qpower2_comp (a b : Q) : a == b -> a ^ 2 == b ^ 2.
Proof. intros H. rewrite H. reflexivity. Qed.

Lemma Qlen_cons {A : Type} (a : A) l : Qlen (a :: l) == 1 + Qlen l.
Proof.
  unfold Qlen. cbn [length]. rewrite Nat2Z.inj_succ, <- Z.add_1_l, inject_Z_plus.
  reflexivity.
Qed.

Lemma Qlen_nonneg {A : Type} (l : list A) : 0 <= Qlen l.
Proof.
  unfold Qlen. change 0 with (inject_Z 0). rewrite <- Zle_Qle. lia.
Qed.

Lemma Qlen_zero_nil {A : Type} (l : list A) : Qlen l <= 0 -> l = [].
Proof.
  destruct l as [|a l]; [reflexivity|]. intros H. exfalso.
  rewrite Qlen_cons in H. pose proof (Qlen_nonneg l). lra.
Qed.

Lemma Qlen_filter_map {A : Type} (f : A -> bool) (v : bool) (l : list A) :
  Qlen (filter (fun c : bool => c = true) (map (fun a => if v then f a else negb (f a)) l))
  = Qlen (filter (fun a => f a = v) l).
Proof.
  unfold Qlen. do 2 f_equal.
  induction l as [|a l IH]; [reflexivity|]. cbn [map].
  destruct (f a) eqn:E, v; cbn [negb];
    rewrite ?filter_cons_True, ?filter_cons_False by congruence;
    cbn [length]; congruence.
Qed.

Lemma mean_cons_sum (l : list Q) : 0 < Qlen l -> mean l == np.Qsum l / Qlen l.
Proof.
  destruct l as [|a l]; [|reflexivity]. intros H. compute in H. discriminate.
Qed.

(** ** Rounding *)

Lemma rint_lower (a : Z) (q : Q) : inject_Z a <= q -> (a <= rint q)%Z.
Proof.
  intros H. apply Qfloor_resp_le in H. rewrite Qfloor_Z in H.
  unfold rint. repeat destruct (Qltb _ _); try destruct (Z.even _); lia.
Qed.

Lemma rint_upper (b : Z) (q : Q) : q <= inject_Z b -> (rint q <= b)%Z.
Proof.
  intros H. pose proof (Qfloor_le q) as Hf.
  assert (Hfb : (Qfloor q <= b)%Z).
  { apply Qfloor_resp_le in H. rewrite Qfloor_Z in H. exact H. }
  assert (Hstep : inject_Z (Qfloor q) < q -> (Qfloor q + 1 <= b)%Z).
  { intros Hlt. assert (Hq : inject_Z (Qfloor q) < inject_Z b) by lra.
    rewrite <- Zlt_Qlt in Hq. lia. }
  unfold rint.
  destruct (Qltb (q - inject_Z (Qfloor q)) (1 # 2)) eqn:E1; [exact Hfb|].
  apply Qltb_false in E1.
  assert (Hb1 : (Qfloor q + 1 <= b)%Z) by (apply Hstep; lra).
  destruct (Qltb _ _); [exact Hb1|]. destruct (Z.even _); [exact Hfb|exact Hb1].
Qed.

Lemma Qround_decimals_2_bounds (a b : Z) (q : Q) :
  inject_Z a <= q -> q <= inject_Z b ->
  inject_Z a <= Qround_decimals 2 q /\ Qround_decimals 2 q <= inject_Z b.
Proof.
  intros Ha Hb. unfold Qround_decimals.
  change (inject_Z (10 ^ Z.of_nat 2)) with (inject_Z 100).
  assert (H1 : (a * 100 <= rint (q * inject_Z 100))%Z).
  { apply rint_lower. rewrite inject_Z_mult. change (inject_Z 100) with 100. lra. }
  assert (H2 : (rint (q * inject_Z 100) <= b * 100)%Z).
  { apply rint_upper. rewrite inject_Z_mult. change (inject_Z 100) with 100. lra. }
  rewrite Zle_Qle, inject_Z_mult in H1, H2.
  change (inject_Z 100) with 100 in *.
  set (z := inject_Z (rint (q * 100))) in *.
  split.
  - apply Qle_shift_div_l; lra.
  - apply Qle_shift_div_r; lra.
Qed.

(** ** Array operations *)

Lemma broadcast_same_length {A B C : Type} (f : A -> B -> C) u v :
  length u = length v -> np.broadcast f u v = Ok (zip_with f u v).
Proof. intros H. unfold np.broadcast. rewrite decide_True; done. Qed.

Lemma mapM_result_Ok {A B : Type} (f : A -> result B) (g : A -> B) (l : list A) :
  Forall (fun a => f a = Ok (g a)) l -> mapM f l = Ok (map g l).
Proof.
  induction 1 as [|a l Ha _ IH]; [reflexivity|].
  cbn. rewrite Ha. cbn. rewrite IH. reflexivity.
Qed.

Lemma sum_mul_Ok x col :
  Forall (fun row => length row = length col) x ->
  np.sum_mul x col = Ok (map (row_sum_mul col) x).
Proof.
  intros H. apply mapM_result_Ok. eapply Forall_impl; [exact H|].
  intros row Hrow. cbn. rewrite broadcast_same_length by done. reflexivity.
Qed.

Lemma sum_mul_bool_Ok x col :
  Forall (fun row => length row = length col) x ->
  np.sum_mul_bool x col = Ok (map (row_sum_mul_bool col) x).
Proof.
  intros H. apply mapM_result_Ok. eapply Forall_impl; [exact H|].
  intros row Hrow. cbn. rewrite broadcast_same_length by done. reflexivity.
Qed.

Lemma sum_mul_items_Ok x col :
  Forall (fun row => length row = length col) x ->
  np.sum_mul_items x col = Ok (map (row_sum_mul_items col) x).
Proof.
  intros H. apply mapM_result_Ok. eapply Forall_impl; [exact H|].
  intros row Hrow. cbn. rewrite broadcast_same_length by done. reflexivity.
Qed.

Lemma where_map (c : Q -> bool) (d : Q) (l : list Q) :
  np.where_ (map c l) l d = map (fun a => if c a then a else d) l.
Proof. induction l as [|a l IH]; [reflexivity|]. cbn. f_equal. exact IH. Qed.

Lemma getitem_mask_selected {A : Type} (frame : list A) (mask : list bool) :
  length mask = length frame -> pd.getitem_mask frame mask = Ok (selected mask frame).
Proof. intros H. unfold pd.getitem_mask. rewrite decide_True by done. reflexivity. Qed.

Lemma columns_encode n (bits : list (list bool)) :
  columns n bits -> columns n (map encode bits).
Proof.
  unfold columns. rewrite Forall_map. intros H. eapply Forall_impl; [exact H|].
  intros b Hb. unfold encode. cbn. rewrite length_map. exact Hb.
Qed.

(** ** The evaluators in closed form *)

Lemma V2_evaluate_closed (self : Problem V2.Row) x (out : dict) :
  Forall (fun row => length row = length (df self)) x ->
  V2._evaluate x (self, out) =
  Ok (self,
      <["G" := map (constraint_row (map V2.job_card_open (df self))
                      (map V2.fitness_certificate_valid (df self))) x]>
        (<["F" := map (objective12 (map V2.mileage (df self))
                         (map V2.punctuality_score (df self))) x]> out)).
Proof.
  intros Hx. unfold V2._evaluate.
  rewrite !sum_mul_Ok, !sum_mul_bool_Ok, !sum_mul_items_Ok
    by (rewrite ?length_map; done).
  cbn [mbind result_mbind result_bind].
  unfold np.sum_axis1, np.column_stack3, np.column_stack2.
  rewrite where_map, !map_map, !zip_with_map_map, !map_map, !zip_with_map_map.
  unfold constraint_row, objective12, safe_divisor_of. rewrite ?map_map.
  reflexivity.
Qed.

Lemma V3_evaluate_closed (self : Problem V3.Row) x (out : dict) :
  Forall (fun row => length row = length (df self)) x ->
  V3._evaluate x (self, out) =
  Ok (self,
      <["G" := map (constraint_row (map V3.job_card_open (df self))
                      (map V3.fitness_certificate_valid (df self))) x]>
        (<["F" := map (objective123 (map V3.mileage (df self))
                         (map V3.punctuality_score (df self))
                         (map (fun r => Num (V3.branding_priority_score r)) (df self))) x]>
           out)).
Proof.
  intros Hx. unfold V3._evaluate.
  rewrite !sum_mul_Ok, !sum_mul_bool_Ok, !sum_mul_items_Ok
    by (rewrite ?length_map; done).
  cbn [mbind result_mbind result_bind fmap result_fmap].
  unfold np.sum_axis1, np.column_stack3, np.column_stack2.
  rewrite where_map, !map_map, !zip_with_map_map, !map_map, !zip_with_map_map.
  unfold constraint_row, objective123, safe_divisor_of. rewrite ?map_map.
  reflexivity.
Qed.

Lemma lookup_F (out : dict) a b : <["G" := b]> (<["F" := a]> out) !! "F" = Some a.
Proof. rewrite lookup_insert_ne by done. apply lookup_insert_eq. Qed.

Lemma lookup_G (out : dict) a b : <["G" := b]> (<["F" := a]> out) !! "G" = Some b.
Proof. apply lookup_insert_eq. Qed.

Lemma insert_FG_idemp (out : dict) a b :
  <["G" := b]> (<["F" := a]> (<["G" := b]> (<["F" := a]> out)))
  = <["G" := b]> (<["F" := a]> out).
Proof.
  apply map_eq. intros k.
  destruct (decide (k = "G")) as [->|HG].
  - rewrite !lookup_insert_eq. reflexivity.
  - rewrite !(lookup_insert_ne _ "G" k) by done.
    destruct (decide (k = "F")) as [->|HF].
    + rewrite !lookup_insert_eq. reflexivity.
    + repeat (rewrite lookup_insert_ne by done). reflexivity.
Qed.

Lemma iter_bind_fixed {A : Type} (f : A -> result A) (a : A) (n : nat) :
  f a = Ok a -> Nat.iter n (fun r => r ≫= f) (Ok a) = Ok a.
Proof.
  intros H. induction n as [|n IH]; [reflexivity|].
  rewrite Nat.iter_succ, IH. exact H.
Qed.

(** Proof steps shared by the theorems on the evaluators: the state
    returned by [_evaluate], the array stored under a key, and a property
    of each of its rows. *)
Ltac evaluated closed lookup :=
  eexists _, _; split;
  [ apply closed; first [apply columns_encode; assumption | assumption]
  | split; [apply lookup|] ].

Ltac for_each_row H :=
  rewrite ?map_map;
  first [apply Forall2_map_r_diag | apply Forall_map];
  eapply Forall_impl; [exact H|]; cbn beta; intros ? ?.

(** ** Bit-strings *)

Lemma selected_nil_l {A : Type} (units : list A) : selected [] units = [].
Proof. destruct units; reflexivity. Qed.

Lemma selected_cons {A : Type} (b : bool) bits (u : A) units :
  selected (b :: bits) (u :: units) =
  if b then u :: selected bits units else selected bits units.
Proof.
  unfold selected. cbn [zip zip_with]. destruct b.
  - rewrite filter_cons_True by done. reflexivity.
  - rewrite filter_cons_False by done. reflexivity.
Qed.

Lemma selected_map {A B : Type} (f : A -> B) bits units :
  selected bits (map f units) = map f (selected bits units).
Proof.
  revert units. induction bits as [|b bits IH]; intros units.
  - rewrite !selected_nil_l. reflexivity.
  - destruct units as [|u units]; [reflexivity|].
    cbn [map]. rewrite !selected_cons, IH. destruct b; reflexivity.
Qed.

Lemma threshold_encode (b : list bool) : map (Qltb (1 # 2)) (encode b) = b.
Proof.
  unfold encode. rewrite map_map.
  induction b as [|a b IH]; [reflexivity|]. cbn [map]. rewrite IH.
  destruct a; reflexivity.
Qed.

Lemma astype_bool_encode (b : list bool) : astype_bool (encode b) = b.
Proof.
  unfold astype_bool, encode. rewrite map_map.
  induction b as [|a b IH]; [reflexivity|]. cbn [map]. rewrite IH.
  destruct a; reflexivity.
Qed.


(** Selected count. *)
Lemma Qsum_encode {A : Type} bits (units : list A) :
  length bits = length units ->
  np.Qsum (encode bits) == Qlen (selected bits units).
Proof.
  revert units. induction bits as [|b bits IH]; intros [|u units] Hlen;
    try discriminate; [reflexivity|].
  injection Hlen as Hlen. rewrite selected_cons.
  cbn [encode map np.Qsum foldr]. fold (encode bits). fold (np.Qsum (encode bits)).
  rewrite (IH units Hlen). destruct b; [rewrite Qlen_cons|]; lra.
Qed.

Lemma row_sum_mul_bits col bits :
  length bits = length col -> Forall finite col ->
  is_num (row_sum_mul col (encode bits)) (np.Qsum (map to_Q (selected bits col))).
Proof.
  revert col. induction bits as [|b bits IH]; intros [|c col] Hlen Hfin;
    try discriminate; [reflexivity|].
  injection Hlen as Hlen. inversion Hfin as [|? ? Hc Hcol]; subst.
  specialize (IH col Hlen Hcol). rewrite selected_cons.
  unfold row_sum_mul, np.sum in *. cbn [encode map zip_with foldr].
  fold (encode bits).
  destruct (foldr fadd (Num 0) (zip_with (λ xi c, fmul (Num xi) c) (encode bits) col))
    as [s|]; cbn in IH; [|contradiction].
  destruct c as [q|]; cbn in Hc; [|contradiction]. cbn.
  destruct b; cbn [map np.Qsum foldr to_Q]; fold (np.Qsum (map to_Q (selected bits col)));
    rewrite IH; lra.
Qed.

Lemma row_sum_mul_bool_bits (col : list bool) bits :
  length bits = length col ->
  row_sum_mul_bool col (encode bits) ==
  Qlen (filter (fun c : bool => c = true) (selected bits col)).
Proof.
  revert col. induction bits as [|b bits IH]; intros [|c col] Hlen;
    try discriminate; [reflexivity|].
  injection Hlen as Hlen. specialize (IH col Hlen). rewrite selected_cons.
  unfold row_sum_mul_bool in *. cbn [encode map zip_with np.Qsum foldr].
  fold (encode bits).
  fold (np.Qsum (zip_with (λ xi (c : bool), xi * (if c then 1 else 0)) (encode bits) col)).
  rewrite IH. destruct b, c.
  - rewrite filter_cons_True by done. rewrite Qlen_cons. lra.
  - rewrite filter_cons_False by done. lra.
  - lra.
  - lra.
Qed.


Lemma objective2_bits pun bits :
  length bits = length pun -> Forall finite pun ->
  is_num (fsub (Num 100)
            (fdiv (row_sum_mul pun (encode bits)) (Num (safe_divisor_of (encode bits)))))
         (100 - mean (map to_Q (selected bits pun))).
Proof.
  intros Hlen Hfin.
  pose proof (row_sum_mul_bits pun bits Hlen Hfin) as Hp.
  pose proof (Qsum_encode bits pun Hlen) as Hs.
  destruct (row_sum_mul pun (encode bits)) as [p|]; cbn in Hp; [|contradiction].
  unfold safe_divisor_of.
  assert (Hl : Qlen (map to_Q (selected bits pun)) == Qlen (selected bits pun)).
  { unfold Qlen. rewrite length_map. reflexivity. }
  destruct (Qltb 0 (np.Qsum (encode bits))) eqn:E.
  - apply Qltb_true in E. cbn. rewrite Qeqb0_false by lra. cbn.
    rewrite mean_cons_sum by lra. rewrite Hp, Hs, Hl. reflexivity.
  - apply Qltb_false in E. cbn.
    assert (Hnil : selected bits pun = []) by (apply Qlen_zero_nil; lra).
    rewrite Hnil in Hp |- *. change (p == 0) in Hp.
    change (100 - p / 1 == 100 - 0). rewrite Hp. field.
Qed.

Lemma objective12_bits mil pun bits :
  length bits = length mil -> length bits = length pun ->
  Forall finite mil -> Forall finite pun ->
  Forall2 is_num (objective12 mil pun (encode bits))
    [ np.Qsum (map to_Q (selected bits mil));
      100 - mean (map to_Q (selected bits pun)) ].
Proof.
  intros Hm Hp Fm Fp. unfold objective12.
  repeat constructor.
  - apply row_sum_mul_bits; done.
  - apply objective2_bits; done.
Qed.

Lemma row_sum_mul_items_bits (col : list (bool + Z)) bits :
  length bits = length col ->
  row_sum_mul_items col (encode bits) == np.Qsum (map np.as_float (selected bits col)).
Proof.
  revert col. induction bits as [|b bits IH]; intros [|c col] Hlen;
    try discriminate; [reflexivity|].
  injection Hlen as Hlen. specialize (IH col Hlen). rewrite selected_cons.
  unfold row_sum_mul_items in *. cbn [encode map zip_with np.Qsum foldr].
  fold (encode bits).
  fold (np.Qsum (zip_with (fun xi c => xi * np.as_float c) (encode bits) col)).
  rewrite IH. destruct b; cbn [map np.Qsum foldr];
    fold (np.Qsum (map np.as_float (selected bits col))); lra.
Qed.

(** The inverted flags of the selected units of a bool column add up to
    the number of units whose flag is false. *)
Lemma Qsum_invert_bool_column {A : Type} (col : A -> flag) (units : list A) :
  bool_column col units ->
  np.Qsum (map (fun u => np.as_float (np.invert (col u))) units)
  == count_flag (fun u => truth (col u)) false units.
Proof.
  unfold count_flag. induction 1 as [|u units Hu _ IH]; [reflexivity|].
  cbn [map np.Qsum foldr]. fold (np.Qsum (map (fun u => np.as_float (np.invert (col u))) units)).
  rewrite IH, Hu. cbn [truth np.invert np.as_float].
  destruct (truth (col u)) eqn:E; cbn [negb].
  - rewrite filter_cons_False by (rewrite Hu; cbn; congruence). lra.
  - rewrite filter_cons_True by (rewrite Hu; cbn; congruence). rewrite Qlen_cons. lra.
Qed.

(** Those of an object column add up to minus the number of units, minus
    once more the number of units whose flag is true. *)
Lemma Qsum_invert_object_column {A : Type} (col : A -> flag) (units : list A) :
  object_column col units ->
  np.Qsum (map (fun u => np.as_float (np.invert (col u))) units)
  == - (Qlen units + count_flag (fun u => truth (col u)) true units).
Proof.
  unfold count_flag. induction 1 as [|u units Hu _ IH]; [reflexivity|].
  cbn [map np.Qsum foldr]. fold (np.Qsum (map (fun u => np.as_float (np.invert (col u))) units)).
  rewrite IH, Hu, Qlen_cons. cbn [truth np.invert np.as_float].
  destruct (truth (col u)) eqn:E; cbn [Z.b2z Z.lnot Z.pred Z.opp Z.add Z.pos_sub Pos.succ].
  - rewrite filter_cons_True by (rewrite Hu; cbn; congruence). rewrite Qlen_cons.
    change (inject_Z (Z.lnot 1)) with (- (2)). lra.
  - rewrite filter_cons_False by (rewrite Hu; cbn; congruence).
    change (inject_Z (Z.lnot 0)) with (- (1)). lra.
Qed.

Lemma selected_Forall {A : Type} (P : A -> Prop) bits (units : list A) :
  Forall P units -> Forall P (selected bits units).
Proof.
  intros H. revert bits. induction H as [|u units Hu _ IH]; intros bits.
  - destruct bits; constructor.
  - destruct bits as [|b bits]; [rewrite selected_nil_l; constructor|].
    rewrite selected_cons. destruct b; [constructor; [exact Hu|]|]; apply IH.
Qed.

Lemma constraint_row_bits {A : Type} (open : A -> bool) (valid : A -> flag)
    (table : list A) bits :
  length bits = length table ->
  exists g1 g2 g3,
    constraint_row (map open table) (map valid table) (encode bits)
      = [Num g1; Num g2; Num g3] /\
    g1 == (Qlen (selected bits table) - N_TO_SELECT) ^ 2 /\
    g2 == count_flag open true (selected bits table) /\
    (bool_column valid table ->
     g3 == count_flag (fun u => truth (valid u)) false (selected bits table)) /\
    (object_column valid table ->
     g3 == - (Qlen (selected bits table)
              + count_flag (fun u => truth (valid u)) true (selected bits table))).
Proof.
  intros Hlen. unfold constraint_row. eexists _, _, _. split; [reflexivity|].
  assert (H3 : row_sum_mul_items (map np.invert (map valid table)) (encode bits)
               == np.Qsum (map (fun u => np.as_float (np.invert (valid u)))
                             (selected bits table))).
  { rewrite row_sum_mul_items_bits by (rewrite !length_map; done).
    rewrite map_map, selected_map, map_map. reflexivity. }
  split; [|split; [|split]].
  - apply Qpower2_comp. rewrite (Qsum_encode bits table Hlen). reflexivity.
  - unfold count_flag. rewrite row_sum_mul_bool_bits by (rewrite length_map; done).
    rewrite selected_map. rewrite <- (Qlen_filter_map open true).
    erewrite map_ext; [reflexivity|]. intros a; reflexivity.
  - intros Hcol. rewrite H3. apply Qsum_invert_bool_column, selected_Forall, Hcol.
  - intros Hcol. rewrite H3. apply Qsum_invert_object_column, selected_Forall, Hcol.
Qed.

Lemma row_sum_mul_bool_nonneg col row :
  Forall (fun xi => 0 <= xi) row -> 0 <= row_sum_mul_bool col row.
Proof.
  intros H. revert col. unfold row_sum_mul_bool.
  induction H as [|xi row Hxi _ IH]; intros [|c col]; cbn; try lra.
  specialize (IH col). unfold np.Qsum in IH. destruct c; lra.
Qed.

Lemma row_sum_mul_items_bool_column {A : Type} (valid : A -> flag) (table : list A) row :
  bool_column valid table -> Forall (fun xi => 0 <= xi) row ->
  0 <= row_sum_mul_items (map np.invert (map valid table)) row.
Proof.
  intros Hcol H. revert table Hcol. unfold row_sum_mul_items.
  induction H as [|xi row Hxi _ IH]; intros [|u table] Hcol; cbn; try lra.
  inversion Hcol as [|? ? Hu Htable]; subst. specialize (IH table Htable).
  unfold np.Qsum in IH. rewrite Hu. cbn [np.invert np.as_float].
  destruct (negb (truth (valid u))); lra.
Qed.

Lemma row_sum_mul_items_object_column {A : Type} (valid : A -> flag) (table : list A) row :
  object_column valid table -> length row = length table ->
  Forall (fun xi => 0 <= xi) row ->
  row_sum_mul_items (map np.invert (map valid table)) row <= - np.Qsum row.
Proof.
  intros Hcol Hlen H. revert table Hcol Hlen. unfold row_sum_mul_items.
  induction H as [|xi row Hxi _ IH]; intros [|u table] Hcol Hlen;
    try discriminate; cbn; try lra.
  inversion Hcol as [|? ? Hu Htable]; subst. injection Hlen as Hlen.
  specialize (IH table Htable Hlen).
  unfold np.Qsum in IH. rewrite Hu. cbn [np.invert np.as_float].
  destruct (truth (valid u)).
  - change (inject_Z (Z.lnot (Z.b2z true))) with (- (2)). lra.
  - change (inject_Z (Z.lnot (Z.b2z false))) with (- (1)). lra.
Qed.

Lemma constraint_row_sign {A : Type} (open : A -> bool) (valid : A -> flag)
    (table : list A) row :
  length row = length table -> Forall (fun xi => 0 <= xi <= 1) row ->
  exists g1 g2 g3,
    constraint_row (map open table) (map valid table) row = [Num g1; Num g2; Num g3] /\
    0 <= g1 /\ 0 <= g2 /\
    (bool_column valid table -> 0 <= g3) /\
    (object_column valid table -> g3 <= - np.Qsum row).
Proof.
  intros Hlen H.
  assert (H0 : Forall (fun xi => 0 <= xi) row).
  { eapply Forall_impl; [exact H|]. cbn. intros xi [? ?]. done. }
  unfold constraint_row. eexists _, _, _. split; [reflexivity|].
  split; [|split; [|split]].
  - apply Qsquare_nonneg.
  - apply row_sum_mul_bool_nonneg, H0.
  - intros Hcol. apply row_sum_mul_items_bool_column; done.
  - intros Hcol. apply row_sum_mul_items_object_column; done.
Qed.

Lemma finite_columns_v2 table :
  fleet_table_v2 table ->
  Forall finite (map V2.mileage table) /\ Forall finite (map V2.punctuality_score table).
Proof.
  induction 1 as [|u table [Hm Hp] _ [IH1 IH2]]; split; constructor; done.
Qed.

Lemma finite_columns_v3 table :
  fleet_table_v3 table ->
  Forall finite (map V3.mileage table) /\ Forall finite (map V3.punctuality_score table).
Proof.
  induction 1 as [|u table [Hm Hp] _ [IH1 IH2]]; split; constructor; done.
Qed.

Lemma V2_objectives_bits (table : list V2.Row) b :
  fleet_table_v2 table -> length b = length table ->
  Forall2 is_num
    (objective12 (map V2.mileage table) (map V2.punctuality_score table) (encode b))
    [ sum_over (fun u => to_Q (V2.mileage u)) (selected b table);
      100 - mean_over (fun u => to_Q (V2.punctuality_score u)) (selected b table) ].
Proof.
  intros Ht Hb. destruct (finite_columns_v2 table Ht) as [Hm Hp].
  pose proof (objective12_bits (map V2.mileage table) (map V2.punctuality_score table) b)
    as H.
  rewrite !selected_map, !map_map in H. apply H; rewrite ?length_map; done.
Qed.

Lemma V3_objectives_bits (table : list V3.Row) b :
  fleet_table_v3 table -> length b = length table ->
  Forall2 is_num
    (take 2 (objective123 (map V3.mileage table) (map V3.punctuality_score table)
               (map (fun r => Num (V3.branding_priority_score r)) table) (encode b)))
    [ sum_over (fun u => to_Q (V3.mileage u)) (selected b table);
      100 - mean_over (fun u => to_Q (V3.punctuality_score u)) (selected b table) ].
Proof.
  intros Ht Hb. destruct (finite_columns_v3 table Ht) as [Hm Hp].
  pose proof (objective12_bits (map V3.mileage table) (map V3.punctuality_score table) b)
    as H.
  rewrite !selected_map, !map_map in H. apply H; rewrite ?length_map; done.
Qed.

Lemma V3_branding_bits (table : list V3.Row) b :
  length b = length table ->
  is_num
    (fneg (row_sum_mul (map (fun r => Num (V3.branding_priority_score r)) table)
             (encode b)))
    (- sum_over V3.branding_priority_score (selected b table)).
Proof.
  intros Hb.
  pose proof (row_sum_mul_bits
                (map (fun r => Num (V3.branding_priority_score r)) table) b) as H.
  rewrite selected_map, map_map, length_map in H. cbn [to_Q] in H.
  specialize (H Hb). unfold sum_over.
  destruct (row_sum_mul _ _) as [q|]; cbn in *.
  - rewrite H; [reflexivity|]. apply Forall_map, Forall_true. done.
  - apply H. apply Forall_map, Forall_true. done.
Qed.

(** ** Objectives and constraints *)

(** C1.  For every candidate bit-string and every FleetUnit table, both
    evaluators return objective 1 equal to the sum of the mileage over
    the selected units and objective 2 equal to 100 minus the mean
    punctuality score over the selected units, the mean of an empty
    selection being 0. *)
Theorem C1_objectives_wear_and_punctuality (bits : list (list bool)) (out : dict) :
  (forall table : list V2.Row,
     fleet_table_v2 table -> columns (length table) bits ->
     exists out' Fm,
       V2._evaluate (map encode bits) (V2.TrainSchedulingProblem table, out)
         = Ok (V2.TrainSchedulingProblem table, out') /\
       out' !! "F" = Some Fm /\
       Forall2 (fun b row =>
           Forall2 is_num row
             [ sum_over (fun u => to_Q (V2.mileage u)) (selected b table);
               100 - mean_over (fun u => to_Q (V2.punctuality_score u))
                       (selected b table) ])
         bits Fm) /\
  (forall table : list V3.Row,
     fleet_table_v3 table -> columns (length table) bits ->
     exists out' Fm,
       V3._evaluate (map encode bits) (V3.TrainSchedulingProblemV3 table, out)
         = Ok (V3.TrainSchedulingProblemV3 table, out') /\
       out' !! "F" = Some Fm /\
       Forall2 (fun b row =>
           Forall2 is_num (take 2 row)
             [ sum_over (fun u => to_Q (V3.mileage u)) (selected b table);
               100 - mean_over (fun u => to_Q (V3.punctuality_score u))
                       (selected b table) ])
         bits Fm).
Proof.
  split; intros table Ht Hx.
  - evaluated V2_evaluate_closed lookup_F.
    for_each_row Hx. apply V2_objectives_bits; done.
  - evaluated V3_evaluate_closed lookup_F.
    for_each_row Hx. apply V3_objectives_bits; done.
Qed.

(** C6.  The three-objective evaluator returns as objective 3 the negated
    sum of the branding priority score over the selected units; the
    objective vector of the two-objective evaluator has exactly two
    entries, total wear and inverted average punctuality, and no branding
    entry. *)
Theorem C6_branding_objective (bits : list (list bool)) (out : dict) :
  (forall table : list V3.Row,
     columns (length table) bits ->
     n_obj (V3.TrainSchedulingProblemV3 table) = 3%nat /\
     exists out' Fm,
       V3._evaluate (map encode bits) (V3.TrainSchedulingProblemV3 table, out)
         = Ok (V3.TrainSchedulingProblemV3 table, out') /\
       out' !! "F" = Some Fm /\
       Forall2 (fun b row =>
           exists f1 f2 f3, row = [f1; f2; f3] /\
             is_num f3 (- sum_over V3.branding_priority_score (selected b table)))
         bits Fm) /\
  (forall table : list V2.Row,
     fleet_table_v2 table -> columns (length table) bits ->
     n_obj (V2.TrainSchedulingProblem table) = 2%nat /\
     exists out' Fm,
       V2._evaluate (map encode bits) (V2.TrainSchedulingProblem table, out)
         = Ok (V2.TrainSchedulingProblem table, out') /\
       out' !! "F" = Some Fm /\
       Forall2 (fun b row =>
           Forall2 is_num row
             [ sum_over (fun u => to_Q (V2.mileage u)) (selected b table);
               100 - mean_over (fun u => to_Q (V2.punctuality_score u))
                       (selected b table) ])
         bits Fm).
Proof.
  split.
  - intros table Hx. split; [reflexivity|].
    evaluated V3_evaluate_closed lookup_F. for_each_row Hx.
    eexists _, _, _. split; [reflexivity|]. apply V3_branding_bits; done.
  - intros table Ht Hx. split; [reflexivity|].
    evaluated V2_evaluate_closed lookup_F. for_each_row Hx.
    apply V2_objectives_bits; done.
Qed.

(** C8.  Evaluation is idempotent and free of side effects: evaluating a
    candidate array leaves the problem object, hence its table,
    unchanged; evaluating it again any number of times returns the same
    state; and the objective and constraint arrays do not depend on what
    the dictionary [out] held before. *)
Theorem C8_evaluation_idempotent (x : list (list Q)) :
  (forall (self : Problem V2.Row) (out : dict),
     columns (length (df self)) x ->
     exists st1,
       V2._evaluate x (self, out) = Ok st1 /\
       st1.1 = self /\
       (forall n, Nat.iter n (fun r => r ≫= V2._evaluate x) (Ok st1) = Ok st1) /\
       (forall out0, exists st2,
          V2._evaluate x (self, out0) = Ok st2 /\
          st2.2 !! "F" = st1.2 !! "F" /\ st2.2 !! "G" = st1.2 !! "G")) /\
  (forall (self : Problem V3.Row) (out : dict),
     columns (length (df self)) x ->
     exists st1,
       V3._evaluate x (self, out) = Ok st1 /\
       st1.1 = self /\
       (forall n, Nat.iter n (fun r => r ≫= V3._evaluate x) (Ok st1) = Ok st1) /\
       (forall out0, exists st2,
          V3._evaluate x (self, out0) = Ok st2 /\
          st2.2 !! "F" = st1.2 !! "F" /\ st2.2 !! "G" = st1.2 !! "G")).
Proof.
  split; intros self out Hx.
  - eexists. split; [apply V2_evaluate_closed, Hx|].
    split; [reflexivity|]. split.
    + intros n. apply iter_bind_fixed.
      rewrite V2_evaluate_closed by exact Hx. rewrite insert_FG_idemp. reflexivity.
    + intros out0. eexists. split; [apply V2_evaluate_closed, Hx|].
      cbn [snd]. rewrite !lookup_F, !lookup_G. done.
  - eexists. split; [apply V3_evaluate_closed, Hx|].
    split; [reflexivity|]. split.
    + intros n. apply iter_bind_fixed.
      rewrite V3_evaluate_closed by exact Hx. rewrite insert_FG_idemp. reflexivity.
    + intros out0. eexists. split; [apply V3_evaluate_closed, Hx|].
      cbn [snd]. rewrite !lookup_F, !lookup_G. done.
Qed.
(** ** The punctuality score *)

Lemma foldr_Qmin_le (d : Q) (l : list Q) (x : Q) :
  x ∈ d :: l -> foldr Qmin d l <= x.
Proof.
  induction l as [|a l IH]; cbn [foldr]; intros Hx.
  - apply list_elem_of_singleton in Hx. subst. lra.
  - pose proof (Q.le_min_l a (foldr Qmin d l)).
    pose proof (Q.le_min_r a (foldr Qmin d l)).
    apply elem_of_cons in Hx as [->|Hx].
    + assert (foldr Qmin d l <= d) by (apply IH; left). lra.
    + apply elem_of_cons in Hx as [->|Hx]; [lra|].
      assert (foldr Qmin d l <= x) by (apply IH; right; exact Hx). lra.
Qed.

Lemma foldr_Qmax_ge (d : Q) (l : list Q) (x : Q) :
  x ∈ d :: l -> x <= foldr Qmax d l.
Proof.
  induction l as [|a l IH]; cbn [foldr]; intros Hx.
  - apply list_elem_of_singleton in Hx. subst. lra.
  - pose proof (Q.le_max_l a (foldr Qmax d l)).
    pose proof (Q.le_max_r a (foldr Qmax d l)).
    apply elem_of_cons in Hx as [->|Hx].
    + assert (d <= foldr Qmax d l) by (apply IH; left). lra.
    + apply elem_of_cons in Hx as [->|Hx]; [lra|].
      assert (x <= foldr Qmax d l) by (apply IH; right; exact Hx). lra.
Qed.

Lemma elem_of_finite_values (col : list float) (q : Q) :
  Num q ∈ col -> q ∈ pd.finite_values col.
Proof.
  intros H. unfold pd.finite_values. apply list_elem_of_omap.
  exists (Num q). split; [exact H|reflexivity].
Qed.

Lemma pd_min_le col mn q : pd.min col = Num mn -> Num q ∈ col -> mn <= q.
Proof.
  intros Hmin Hq. apply elem_of_finite_values in Hq. unfold pd.min in Hmin.
  destruct (pd.finite_values col) as [|d l]; [discriminate|].
  injection Hmin as <-. apply foldr_Qmin_le, Hq.
Qed.

Lemma pd_max_ge col mx q : pd.max col = Num mx -> Num q ∈ col -> q <= mx.
Proof.
  intros Hmax Hq. apply elem_of_finite_values in Hq. unfold pd.max in Hmax.
  destruct (pd.finite_values col) as [|d l]; [discriminate|].
  injection Hmax as <-. apply foldr_Qmax_ge, Hq.
Qed.

(** The min-max normalisation divides by zero only as 0/0: when the
    extreme mileages coincide every mileage equals them. *)
Lemma normalisation_zero_over_zero col mn mx q :
  pd.min col = Num mn -> pd.max col = Num mx -> Num q ∈ col ->
  mx - mn == 0 -> q - mn == 0.
Proof.
  intros Hmin Hmax Hq H0.
  pose proof (pd_min_le col mn q Hmin Hq).
  pose proof (pd_max_ge col mx q Hmax Hq).
  lra.
Qed.

Lemma punctuality_formula_range (q mn mx : Q) :
  mn < mx -> mn <= q -> q <= mx ->
  95 <= 100 - (q - mn) / (mx - mn) * 5 <= 100.
Proof.
  intros Hlt Hlo Hhi.
  assert (H0 : 0 <= (q - mn) / (mx - mn)) by (apply Qle_shift_div_l; lra).
  assert (H1 : (q - mn) / (mx - mn) <= 1) by (apply Qle_shift_div_r; lra).
  lra.
Qed.

(** [rint] returns a nearest integer, the even one at a tie. *)
Lemma rint_nearest (t : Q) :
  - (1 # 2) <= inject_Z (rint t) - t <= 1 # 2 /\
  (inject_Z (rint t) - t == 1 # 2 \/ t - inject_Z (rint t) == 1 # 2 ->
   Z.even (rint t) = true).
Proof.
  pose proof (Qfloor_le t) as Hlo. pose proof (Qlt_floor t) as Hhi.
  rewrite inject_Z_plus in Hhi. change (inject_Z 1) with 1 in Hhi.
  unfold rint. set (f := Qfloor t) in *.
  destruct (Qltb (t - inject_Z f) (1 # 2)) eqn:E1.
  { apply Qltb_true in E1. split; [lra|]. intros [H|H]; lra. }
  apply Qltb_false in E1.
  destruct (Qltb (1 # 2) (t - inject_Z f)) eqn:E2.
  { apply Qltb_true in E2. rewrite inject_Z_plus. change (inject_Z 1) with 1.
    split; [lra|]. intros [H|H]; lra. }
  apply Qltb_false in E2.
  destruct (Z.even f) eqn:E3.
  - split; [lra|]. intros _. exact E3.
  - rewrite inject_Z_plus. change (inject_Z 1) with 1. split; [lra|].
    intros _. rewrite Z.even_add, E3. reflexivity.
Qed.

Lemma rounded_2_proper (q q' s : Q) : q == q' -> rounded_2 q s -> rounded_2 q' s.
Proof.
  intros Hq (z & Hz & Hb & Ht). exists z. split; [exact Hz|]. split; [lra|].
  intros H. apply Ht. lra.
Qed.

(** [Qround_decimals 2] rounds to two decimals. *)
Lemma Qround_decimals_2_rounded (q : Q) : rounded_2 q (Qround_decimals 2 q).
Proof.
  unfold Qround_decimals. change (inject_Z (10 ^ Z.of_nat 2)) with 100.
  pose proof (rint_nearest (q * 100)) as [Hb Ht].
  set (z := rint (q * 100)) in *. exists z.
  assert (Hs : inject_Z z / 100 * 100 == inject_Z z) by (field; lra).
  set (s := inject_Z z / 100) in *.
  split; [exact Hs|]. split; [lra|].
  intros H. apply Ht. lra.
Qed.

(** The punctuality score of a unit with mileage [q], the extreme
    mileages of the table being [mn] and [mx]. *)
Lemma punctuality_score_column_spec (col : list float) (mn mx : Q) :
  pd.min col = Num mn -> pd.max col = Num mx -> mn < mx ->
  Forall2 (fun m p => forall q, m = Num q ->
             exists s, p = Num s /\
               rounded_2 (100 - 5 * ((q - mn) / (mx - mn))) s /\ 95 <= s <= 100)
          col (map (fround 2) (punctuality_score_column col)).
Proof.
  intros Hmin Hmax Hlt. unfold punctuality_score_column, mileage_norm_column.
  rewrite Hmin, Hmax, !map_map. apply Forall2_map_r_diag.
  apply Forall_forall. intros m Hm q ->.
  pose proof (pd_min_le col mn q Hmin Hm) as Hlo.
  pose proof (pd_max_ge col mx q Hmax Hm) as Hhi.
  cbn [fsub fdiv]. rewrite Qeqb0_false by lra. cbn [fmul fsub fround].
  eexists. split; [reflexivity|]. split.
  - eapply rounded_2_proper; [|apply Qround_decimals_2_rounded]. ring.
  - apply (Qround_decimals_2_bounds 95 100); apply punctuality_formula_range; done.
Qed.

Lemma length_mileage_norm_column col : length (mileage_norm_column col) = length col.
Proof. unfold mileage_norm_column. apply length_map. Qed.

Lemma length_punctuality_score_column col :
  length (punctuality_score_column col) = length col.
Proof.
  unfold punctuality_score_column. rewrite !length_map.
  apply length_mileage_norm_column.
Qed.

Lemma length_fillna_False rel col : length (pd.fillna_False rel col) = length col.
Proof. unfold pd.fillna_False. destruct (_ || _); apply length_map. Qed.

(** The rows built from the columns of the merged frame: their mileage
    and their punctuality score. *)
Lemma rows_column_l {A R : Type} (row : A -> flag * (float * float) -> R)
    (f : R -> float) (g : A -> float) (rows : list A) flags norm score :
  (forall a c, f (row a c) = g a) ->
  length flags = length rows -> length norm = length rows ->
  length score = length rows ->
  map f (zip_with row rows (zip flags (zip norm score))) = map g rows.
Proof.
  intros Hf H1 H2 H3. apply map_zip_with_l; [exact Hf|].
  rewrite !length_zip_with. lia.
Qed.

Lemma rows_column_score {A R : Type} (row : A -> flag * (float * float) -> R)
    (f : R -> float) (rows : list A) flags norm score :
  (forall a c, f (row a c) = c.2.2) ->
  length flags = length rows -> length norm = length rows ->
  length score = length rows ->
  map f (zip_with row rows (zip flags (zip norm score))) = score.
Proof.
  intros Hf H1 H2 H3.
  etrans; [apply (map_zip_with_r f row (fun c => c.2.2));
             [exact Hf | rewrite !length_zip_with; lia]|].
  transitivity (map snd (map snd (zip flags (zip norm score))));
    [rewrite map_map; reflexivity|].
  etrans; [apply (f_equal (map snd)), snd_zip; rewrite length_zip_with; lia|].
  apply snd_zip. lia.
Qed.

Lemma rows_column_flag {A R : Type} (row : A -> flag * (float * float) -> R)
    (f : R -> flag) (rows : list A) flags norm score :
  (forall a c, f (row a c) = c.1) ->
  length flags = length rows -> length norm = length rows ->
  length score = length rows ->
  map f (zip_with row rows (zip flags (zip norm score))) = flags.
Proof.
  intros Hf H1 H2 H3.
  etrans; [apply (map_zip_with_r f row fst);
             [exact Hf | rewrite !length_zip_with; lia]|].
  apply fst_zip. rewrite length_zip_with. lia.
Qed.

(** A health file without rows leaves every mileage missing. *)
Lemma merge_left_nil {L V : Type} (key : L -> string) (left : list L) :
  pd.merge_left key left ([] : list (string * V)) = map (fun l => (l, None)) left.
Proof.
  unfold pd.merge_left. induction left as [|l left IH]; [reflexivity|].
  cbn [flat_map map]. rewrite filter_nil. cbn [app]. f_equal; try exact IH.
Qed.

Lemma merge_frames_no_records trains :
  map V2.merged_mileage (V2.merge_frames trains []) = map (fun _ => NaN) trains.
Proof.
  unfold V2.merge_frames. cbn [filter list_filter map pd.groupby_agg remove_dups].
  rewrite !merge_left_nil, !map_map. reflexivity.
Qed.

Lemma pd_min_all_missing {A : Type} (l : list A) : pd.min (map (fun _ => NaN) l) = NaN.
Proof.
  unfold pd.min, pd.finite_values. induction l as [|a l IH]; [reflexivity|].
  cbn [map omap list_omap] in *. exact IH.
Qed.

Lemma V2_process_numeric rel trains hm :
  hm <> [] ->
  V2.process rel trains hm =
  Ok (zip_with
        (fun r c =>
           V2.mkRow (V2.ts_trainsetId r.1.1.1) (V2.merged_mileage r)
                    (default false r.1.2) c.1 c.2.1 c.2.2)
        (V2.merge_frames trains hm)
        (zip (pd.fillna_False rel (map snd (V2.merge_frames trains hm)))
             (zip (mileage_norm_column
                     (map V2.merged_mileage (V2.merge_frames trains hm)))
                  (map (fround 2)
                     (punctuality_score_column
                        (map V2.merged_mileage (V2.merge_frames trains hm))))))).
Proof. intros Hhm. destruct hm as [|r hm]; [done|]. reflexivity. Qed.

Lemma V2_process_columns rel trains hm table :
  V2.process rel trains hm = Ok table ->
  map V2.mileage table = map V2.merged_mileage (V2.merge_frames trains hm) /\
  map V2.fitness_certificate_valid table
  = pd.fillna_False rel (map snd (V2.merge_frames trains hm)) /\
  length table = length (V2.merge_frames trains hm).
Proof.
  unfold V2.process. destruct (pd.round _ _ _ _) as [score|e] eqn:E; [|discriminate].
  cbn [mbind result_mbind result_bind]. intros [= <-].
  assert (Hs : length score
               = length (map V2.merged_mileage (V2.merge_frames trains hm))).
  { unfold pd.round in E. destruct (V2.value_dtype hm).
    - injection E as <-. rewrite length_map. apply length_punctuality_score_column.
    - destruct (round_object_raises rel); [discriminate|]. injection E as <-.
      apply length_punctuality_score_column. }
  rewrite length_map in Hs.
  split; [|split].
  - apply rows_column_l;
      rewrite ?length_fillna_False, ?length_mileage_norm_column, ?length_map; done.
  - apply rows_column_flag;
      rewrite ?length_fillna_False, ?length_mileage_norm_column, ?length_map; done.
  - rewrite length_zip_with, !length_zip_with, length_fillna_False,
      length_mileage_norm_column, !length_map. lia.
Qed.

Lemma V3_final_cleanup_numeric rel merged :
  V3.final_cleanup rel pd.float64 merged =
  Ok (zip_with
        (fun r c =>
           V3.mkRow (V3.m_trainsetId r) (V3.m_mileage r)
                    (default false (V3.m_job_card_open r)) c.1
                    (V3.fillna0 (V3.m_branding_priority_score r)) c.2.1 c.2.2)
        merged
        (zip (pd.fillna_False rel (map V3.m_fitness_certificate_valid merged))
             (zip (mileage_norm_column (map V3.m_mileage merged))
                  (map (fround 2)
                     (punctuality_score_column (map V3.m_mileage merged)))))).
Proof. reflexivity. Qed.

(** C10.  In a table whose largest mileage strictly exceeds its smallest
    one, both scripts complete the derivation and the punctuality score
    they give to every unit that has a mileage is 100 minus 5 times its
    min-max normalised mileage, rounded to two decimals: a whole number
    of hundredths at most half a hundredth away from that value.  It
    lies in the interval [95, 100]. *)
Theorem C10_punctuality_score_range (rel : pandas_release) (mn mx : Q) :
  mn < mx ->
  (forall trains hm,
     pd.min (map V2.merged_mileage (V2.merge_frames trains hm)) = Num mn ->
     pd.max (map V2.merged_mileage (V2.merge_frames trains hm)) = Num mx ->
     exists table,
       V2.process rel trains hm = Ok table /\
       map V2.mileage table = map V2.merged_mileage (V2.merge_frames trains hm) /\
       Forall (fun u => forall q, V2.mileage u = Num q ->
                 exists s, V2.punctuality_score u = Num s /\
                   rounded_2 (100 - 5 * ((q - mn) / (mx - mn))) s /\
                   95 <= s <= 100)
              table) /\
  (forall merged,
     pd.min (map V3.m_mileage merged) = Num mn ->
     pd.max (map V3.m_mileage merged) = Num mx ->
     exists table,
       V3.final_cleanup rel pd.float64 merged = Ok table /\
       map V3.mileage table = map V3.m_mileage merged /\
       Forall (fun u => forall q, V3.mileage u = Num q ->
                 exists s, V3.punctuality_score u = Num s /\
                   rounded_2 (100 - 5 * ((q - mn) / (mx - mn))) s /\
                   95 <= s <= 100)
              table).
Proof.
  intros Hlt. split.
  - intros trains hm Hmin Hmax.
    assert (Hhm : hm <> []).
    { intros ->. rewrite merge_frames_no_records, pd_min_all_missing in Hmin.
      discriminate. }
    eexists. split; [apply V2_process_numeric, Hhm|].
    assert (Hm : map V2.mileage
                   (zip_with
                      (fun r c =>
                         V2.mkRow (V2.ts_trainsetId r.1.1.1) (V2.merged_mileage r)
                                  (default false r.1.2) c.1 c.2.1 c.2.2)
                      (V2.merge_frames trains hm)
                      (zip (pd.fillna_False rel (map snd (V2.merge_frames trains hm)))
                         (zip (mileage_norm_column
                                 (map V2.merged_mileage (V2.merge_frames trains hm)))
                              (map (fround 2)
                                 (punctuality_score_column
                                    (map V2.merged_mileage
                                       (V2.merge_frames trains hm)))))))
                 = map V2.merged_mileage (V2.merge_frames trains hm)).
    { apply rows_column_l;
        rewrite ?length_fillna_False, ?length_mileage_norm_column, ?length_map,
          ?length_punctuality_score_column, ?length_map; done. }
    split; [exact Hm|].
    apply (Forall2_map_map_diag
             (fun m p => forall q, m = Num q ->
                exists s, p = Num s /\
                  rounded_2 (100 - 5 * ((q - mn) / (mx - mn))) s /\ 95 <= s <= 100)).
    rewrite Hm.
    rewrite rows_column_score
      by (rewrite ?length_fillna_False, ?length_mileage_norm_column, ?length_map,
            ?length_punctuality_score_column, ?length_map; done).
    apply punctuality_score_column_spec; done.
  - intros merged Hmin Hmax.
    eexists. split; [apply V3_final_cleanup_numeric|].
    assert (Hm : map V3.mileage
                   (zip_with
                      (fun r c =>
                         V3.mkRow (V3.m_trainsetId r) (V3.m_mileage r)
                                  (default false (V3.m_job_card_open r)) c.1
                                  (V3.fillna0 (V3.m_branding_priority_score r))
                                  c.2.1 c.2.2)
                      merged
                      (zip (pd.fillna_False rel
                              (map V3.m_fitness_certificate_valid merged))
                         (zip (mileage_norm_column (map V3.m_mileage merged))
                              (map (fround 2)
                                 (punctuality_score_column
                                    (map V3.m_mileage merged))))))
                 = map V3.m_mileage merged).
    { apply rows_column_l;
        rewrite ?length_fillna_False, ?length_mileage_norm_column, ?length_map,
          ?length_punctuality_score_column, ?length_map; done. }
    split; [exact Hm|].
    apply (Forall2_map_map_diag
             (fun m p => forall q, m = Num q ->
                exists s, p = Num s /\
                  rounded_2 (100 - 5 * ((q - mn) / (mx - mn))) s /\ 95 <= s <= 100)).
    rewrite Hm.
    rewrite rows_column_score
      by (rewrite ?length_fillna_False, ?length_mileage_norm_column, ?length_map,
            ?length_punctuality_score_column, ?length_map; done).
    apply punctuality_score_column_spec; done.
Qed.

(** ** The dtype of the flag column *)

Section merges.
Context {L V : Type} (key : L -> string).

Lemma filter_key_nil (k : string) (right : list (string * V)) :
  filter (fun kv => kv.1 = k) right = [] <-> k ∉ map fst right.
Proof.
  induction right as [|[k' v] right IH]; [split; [intros _; apply not_elem_of_nil|done]|].
  cbn [map fst]. rewrite not_elem_of_cons.
  destruct (decide (k' = k)) as [->|Hne].
  - rewrite filter_cons_True by done. split; [discriminate|]. intros [H _]. done.
  - rewrite filter_cons_False by done. rewrite IH. split; [intros H; split; [congruence|exact H]|].
    intros [_ H]. exact H.
Qed.

(** No value of the merged column is missing exactly when every left
    row finds its key in the right frame. *)
Lemma merge_left_notna (left : list L) (right : list (string * V)) :
  forallb pd.notna (map snd (pd.merge_left key left right)) = true
  <-> Forall (fun l => key l ∈ map fst right) left.
Proof.
  unfold pd.merge_left. induction left as [|l left IH]; [split; [constructor|reflexivity]|].
  cbn [flat_map]. rewrite map_app, forallb_app, andb_true_iff, IH, Forall_cons.
  apply and_iff_compat_r.
  destruct (filter (fun kv => kv.1 = key l) right) as [|m ms] eqn:E.
  - apply filter_key_nil in E. cbn. split; [discriminate|done].
  - split; [intros _|intros _].
    + destruct (decide (key l ∈ map fst right)) as [Hin|Hout]; [exact Hin|].
      apply filter_key_nil in Hout. congruence.
    + rewrite map_map. cbn [snd]. generalize (m :: ms). intros ms'.
      induction ms' as [|m' ms' IH']; [reflexivity|]. cbn. exact IH'.
Qed.

(** The left rows of the merged frame are the rows of the left frame. *)
Lemma merge_left_Forall_fst (P : L -> Prop) (left : list L) (right : list (string * V)) :
  Forall (fun r => P r.1) (pd.merge_left key left right) <-> Forall P left.
Proof.
  unfold pd.merge_left. induction left as [|l left IH]; [split; constructor|].
  cbn [flat_map]. rewrite Forall_app, IH, Forall_cons. apply and_iff_compat_r.
  destruct (filter (fun kv => kv.1 = key l) right) as [|m ms].
  - rewrite Forall_singleton. reflexivity.
  - rewrite Forall_map. cbn [fst]. split.
    + intros H. inversion H; subst. assumption.
    + intros H. apply Forall_forall. intros ? _. exact H.
Qed.

End merges.

Lemma groupby_agg_keys {V W : Type} (agg : list V -> W) (rows : list (string * V))
    (k : string) :
  k ∈ map fst (pd.groupby_agg agg rows) <-> k ∈ map fst rows.
Proof.
  unfold pd.groupby_agg. rewrite map_map. cbn [fst]. rewrite map_id.
  apply elem_of_remove_dups.
Qed.

Lemma certificate_on_record hm (id : string) :
  id ∈ map fst
         (map (fun r => (V2.hm_trainsetId r, V2.isClear r))
            (filter (fun r => V2.department r = "Rolling-Stock")
               (filter (fun r => V2.category r = "Fitness Certificate") hm)))
  <-> has_rolling_stock_certificate hm id.
Proof.
  unfold has_rolling_stock_certificate. rewrite map_map. cbn [fst].
  rewrite Exists_exists. change map with (@fmap list _). rewrite list_elem_of_fmap.
  split.
  - intros (r & -> & Hr). apply list_elem_of_filter in Hr as [Hd Hr].
    apply list_elem_of_filter in Hr as [Hc Hr]. exists r. done.
  - intros (r & Hr & Hid & Hc & Hd). exists r. split; [done|].
    apply list_elem_of_filter. split; [exact Hd|].
    apply list_elem_of_filter. split; [exact Hc|exact Hr].
Qed.

Lemma merge_frames_certificates trains hm :
  forallb pd.notna (map snd (V2.merge_frames trains hm)) = true
  <-> Forall (fun t => has_rolling_stock_certificate hm (V2.ts_trainsetId t)) trains.
Proof.
  unfold V2.merge_frames. rewrite merge_left_notna.
  rewrite (merge_left_Forall_fst (fun r => V2.ts_trainsetId r.1)
             (fun r => V2.ts_trainsetId r.1 ∈ _)).
  rewrite (merge_left_Forall_fst V2.ts_trainsetId
             (fun t => V2.ts_trainsetId t ∈ _)).
  apply Forall_iff. intros t. rewrite groupby_agg_keys. apply certificate_on_record.
Qed.

Lemma fillna_False_bool_column rel (col : list (option bool)) :
  forallb pd.notna col = true \/ fillna_downcast rel = true ->
  Forall (fun c => c = np_bool (truth c)) (pd.fillna_False rel col).
Proof.
  intros H. unfold pd.fillna_False.
  replace (forallb pd.notna col || fillna_downcast rel) with true
    by (destruct H as [-> | ->]; [reflexivity|rewrite orb_true_r; reflexivity]).
  apply Forall_map, Forall_true. reflexivity.
Qed.

Lemma fillna_False_object_column rel (col : list (option bool)) :
  forallb pd.notna col = false -> fillna_downcast rel = false ->
  Forall (fun c => c = py_bool (truth c)) (pd.fillna_False rel col).
Proof.
  intros H1 H2. unfold pd.fillna_False. rewrite H1, H2.
  apply Forall_map, Forall_true. reflexivity.
Qed.

(** The flag column of the processed table is an object column exactly
    when some trainset has no Rolling-Stock certificate on record and
    the release does not cast the filled column back to bool. *)
Lemma V2_process_flag_column rel trains hm table :
  V2.process rel trains hm = Ok table ->
  (fillna_downcast rel = true \/
   Forall (fun t => has_rolling_stock_certificate hm (V2.ts_trainsetId t)) trains ->
   bool_column V2.fitness_certificate_valid table) /\
  (fillna_downcast rel = false ->
   ~ Forall (fun t => has_rolling_stock_certificate hm (V2.ts_trainsetId t)) trains ->
   object_column V2.fitness_certificate_valid table).
Proof.
  intros Htable. destruct (V2_process_columns rel trains hm table Htable) as (_ & Hf & _).
  unfold bool_column, object_column.
  rewrite <- !(Forall_map V2.fitness_certificate_valid
                 (fun c => c = _ (truth c))), Hf.
  split.
  - intros H. apply fillna_False_bool_column. destruct H as [H|H]; [right; exact H|].
    left. apply merge_frames_certificates, H.
  - intros Hrel H. apply fillna_False_object_column; [|exact Hrel].
    destruct (forallb pd.notna _) eqn:E; [|reflexivity].
    exfalso. apply H, merge_frames_certificates, E.
Qed.

(** ** The constraint vector *)

(** C2.  For every candidate bit-string with selected count s, both
    evaluators return a constraint vector of exactly three entries.  The
    first is the squared deviation of s from the target count and the
    second the number of selected units with an open job card.  The third
    is the number of selected units whose fitness certificate is not
    valid when the flag column has the dtype bool; when it is an object
    column, [~] inverts the integers behind the Python booleans and the
    third entry is minus the selected count minus the number of selected
    units whose certificate is valid.  The table that the loading code
    builds is of the second kind when a trainset has no Rolling-Stock
    certificate on record and the release does not cast the filled
    column back to bool: on the scenario files the two candidates get
    the third entries -4 and -1. *)
Theorem C2_constraint_vector (bits : list (list bool)) (out : dict) :
  (forall table : list V2.Row,
     columns (length table) bits ->
     exists out' Gm,
       V2._evaluate (map encode bits) (V2.TrainSchedulingProblem table, out)
         = Ok (V2.TrainSchedulingProblem table, out') /\
       out' !! "G" = Some Gm /\
       Forall2 (fun b row =>
           exists g1 g2 g3, row = [Num g1; Num g2; Num g3] /\
             g1 == (Qlen (selected b table) - N_TO_SELECT) ^ 2 /\
             g2 == count_flag V2.job_card_open true (selected b table) /\
             (bool_column V2.fitness_certificate_valid table ->
              g3 == count_flag (fun u => truth (V2.fitness_certificate_valid u)) false
                      (selected b table)) /\
             (object_column V2.fitness_certificate_valid table ->
              g3 == - (Qlen (selected b table)
                       + count_flag (fun u => truth (V2.fitness_certificate_valid u)) true
                           (selected b table))))
         bits Gm) /\
  (forall table : list V3.Row,
     columns (length table) bits ->
     exists out' Gm,
       V3._evaluate (map encode bits) (V3.TrainSchedulingProblemV3 table, out)
         = Ok (V3.TrainSchedulingProblemV3 table, out') /\
       out' !! "G" = Some Gm /\
       Forall2 (fun b row =>
           exists g1 g2 g3, row = [Num g1; Num g2; Num g3] /\
             g1 == (Qlen (selected b table) - N_TO_SELECT) ^ 2 /\
             g2 == count_flag V3.job_card_open true (selected b table) /\
             (bool_column V3.fitness_certificate_valid table ->
              g3 == count_flag (fun u => truth (V3.fitness_certificate_valid u)) false
                      (selected b table)) /\
             (object_column V3.fitness_certificate_valid table ->
              g3 == - (Qlen (selected b table)
                       + count_flag (fun u => truth (V3.fitness_certificate_valid u)) true
                           (selected b table))))
         bits Gm) /\
  (forall rel trains hm table,
     V2.process rel trains hm = Ok table ->
     (fillna_downcast rel = true \/
      Forall (fun t => has_rolling_stock_certificate hm (V2.ts_trainsetId t)) trains ->
      bool_column V2.fitness_certificate_valid table) /\
     (fillna_downcast rel = false ->
      ~ Forall (fun t => has_rolling_stock_certificate hm (V2.ts_trainsetId t)) trains ->
      object_column V2.fitness_certificate_valid table)) /\
  stored "G"
    (table ← V2.process release_no_downcast scenario_trainsets scenario_health;
     V2._evaluate (map encode scenario_candidates) (V2.TrainSchedulingProblem table, ∅))
  = Ok (Some [[Num 169; Num 1; Num (-4)]; [Num 196; Num 0; Num (-1)]]).
Proof.
  split; [|split; [|split]].
  - intros table Hx. evaluated V2_evaluate_closed lookup_G. for_each_row Hx.
    apply (constraint_row_bits V2.job_card_open V2.fitness_certificate_valid); done.
  - intros table Hx. evaluated V3_evaluate_closed lookup_G. for_each_row Hx.
    apply (constraint_row_bits V3.job_card_open V3.fitness_certificate_valid); done.
  - apply V2_process_flag_column.
  - vm_compute. reflexivity.
Qed.

(** C5.  For every candidate whose entries lie in [0,1] the first two
    entries of the constraint vector returned by both evaluators are
    numbers greater than or equal to 0 (the target count is the constant
    15).  So is the third when the flag column has the dtype bool; when
    it is an object column the third entry is at most minus the sum of
    the candidate's entries, hence negative as soon as a unit is
    selected.  The loading code builds such a column when a trainset has
    no Rolling-Stock certificate on record and the release does not cast
    the filled column back to bool: on the scenario files the two
    candidates get the third entries -4 and -1. *)
Theorem C5_constraints_sign (x : list (list Q)) (out : dict) :
  Forall (Forall (fun xi => 0 <= xi <= 1)) x ->
  (forall table : list V2.Row,
     columns (length table) x ->
     exists out' Gm,
       V2._evaluate x (V2.TrainSchedulingProblem table, out)
         = Ok (V2.TrainSchedulingProblem table, out') /\
       out' !! "G" = Some Gm /\
       Forall2 (fun row g =>
           exists g1 g2 g3, g = [Num g1; Num g2; Num g3] /\
             0 <= g1 /\ 0 <= g2 /\
             (bool_column V2.fitness_certificate_valid table -> 0 <= g3) /\
             (object_column V2.fitness_certificate_valid table -> g3 <= - np.Qsum row))
         x Gm) /\
  (forall table : list V3.Row,
     columns (length table) x ->
     exists out' Gm,
       V3._evaluate x (V3.TrainSchedulingProblemV3 table, out)
         = Ok (V3.TrainSchedulingProblemV3 table, out') /\
       out' !! "G" = Some Gm /\
       Forall2 (fun row g =>
           exists g1 g2 g3, g = [Num g1; Num g2; Num g3] /\
             0 <= g1 /\ 0 <= g2 /\
             (bool_column V3.fitness_certificate_valid table -> 0 <= g3) /\
             (object_column V3.fitness_certificate_valid table -> g3 <= - np.Qsum row))
         x Gm) /\
  (forall rel trains hm table,
     V2.process rel trains hm = Ok table ->
     (fillna_downcast rel = true \/
      Forall (fun t => has_rolling_stock_certificate hm (V2.ts_trainsetId t)) trains ->
      bool_column V2.fitness_certificate_valid table) /\
     (fillna_downcast rel = false ->
      ~ Forall (fun t => has_rolling_stock_certificate hm (V2.ts_trainsetId t)) trains ->
      object_column V2.fitness_certificate_valid table)) /\
  exists table g1 g2 g3 h1 h2 h3,
    V2.process release_no_downcast scenario_trainsets scenario_health = Ok table /\
    (fun st => st.2 !! "G") <$>
      V2._evaluate (map encode scenario_candidates) (V2.TrainSchedulingProblem table, ∅)
    = Ok (Some [[Num g1; Num g2; Num g3]; [Num h1; Num h2; Num h3]]) /\
    g3 == - (4) /\ h3 == - (1) /\ g3 < 0 /\ h3 < 0.
Proof.
  intros H01. split; [|split; [|split]].
  - intros table Hx. evaluated V2_evaluate_closed lookup_G.
    apply Forall2_map_r_diag, Forall_forall. intros row Hrow.
    rewrite Forall_forall in H01. unfold columns in Hx. rewrite Forall_forall in Hx.
    apply (constraint_row_sign V2.job_card_open V2.fitness_certificate_valid); auto.
  - intros table Hx. evaluated V3_evaluate_closed lookup_G.
    apply Forall2_map_r_diag, Forall_forall. intros row Hrow.
    rewrite Forall_forall in H01. unfold columns in Hx. rewrite Forall_forall in Hx.
    apply (constraint_row_sign V3.job_card_open V3.fitness_certificate_valid); auto.
  - apply V2_process_flag_column.
  - eexists _, _, _, _, _, _, _. split; [reflexivity|]. split.
    + rewrite V2_evaluate_closed by (repeat constructor).
      cbn [fmap result_fmap result_bind snd]. rewrite lookup_G. reflexivity.
    + vm_compute. repeat split; reflexivity.
Qed.


(** ** Sorting *)

Lemma omap_lookup_offset {A B : Type} (f : A -> B) (pre l : list A) :
  omap (fun i => f <$> (pre ++ l) !! i) (seq (length pre) (length l)) = map f l.
Proof.
  revert pre. induction l as [|a l IH]; intros pre; [reflexivity|].
  cbn [length seq omap list_omap map]. rewrite list_lookup_middle by done.
  cbn [fmap option_fmap option_map]. f_equal.
  specialize (IH (pre ++ [a])). rewrite <- app_assoc, length_app in IH.
  cbn [app length] in IH. rewrite Nat.add_1_r in IH. exact IH.
Qed.

Lemma omap_lookup_seq {A B : Type} (f : A -> B) (l : list A) :
  omap (fun i => f <$> l !! i) (seq 0 (length l)) = map f l.
Proof. apply (omap_lookup_offset f [] l). Qed.

Lemma omap_lookup_fmap {A B : Type} (f : A -> B) (l : list A) (idx : list nat) :
  omap (fun i => f <$> l !! i) idx = map f (omap (fun i => l !! i) idx).
Proof.
  induction idx as [|i idx IH]; [reflexivity|].
  cbn [omap list_omap]. destruct (l !! i); cbn; rewrite IH; reflexivity.
Qed.

Lemma Forall_omap_lookup {A : Type} (P : A -> Prop) (l : list A) (idx : list nat) :
  Forall P l -> Forall P (omap (fun i => l !! i) idx).
Proof.
  intros H. induction idx as [|i idx IH]; [constructor|].
  cbn [omap list_omap]. destruct (l !! i) as [a|] eqn:E; [|exact IH].
  constructor; [|exact IH]. rewrite Forall_forall in H. apply H.
  eapply list_elem_of_lookup_2, E.
Qed.

Section sort_values.
Context {A : Type} (key : A -> float).

Lemma non_nans_keys (frame : list A) :
  Forall (fun p => key p.2 = Num p.1) (pd.non_nans key frame).
Proof.
  unfold pd.non_nans. induction frame as [|r frame IH]; [constructor|].
  cbn [omap list_omap]. destruct (key r) as [q|] eqn:E; [|exact IH].
  constructor; [exact E|exact IH].
Qed.

Lemma non_nans_nans_Permutation (frame : list A) :
  map snd (pd.non_nans key frame) ++ filter (fun r => isna (key r) = true) frame
  ≡ₚ frame.
Proof.
  unfold pd.non_nans. induction frame as [|r frame IH]; [reflexivity|].
  cbn [omap list_omap]. destruct (key r) as [q|] eqn:E.
  - rewrite filter_cons_False by (rewrite E; discriminate).
    cbn [map app snd]. rewrite IH. reflexivity.
  - rewrite filter_cons_True by (rewrite E; reflexivity).
    rewrite <- Permutation_middle, IH. reflexivity.
Qed.

Lemma Sorted_keyed (pairs : list (Q * A)) :
  Forall (fun p => key p.2 = Num p.1) pairs ->
  Sorted Qle (map fst pairs) ->
  Sorted (fun a b => fle (key a) (key b)) (map snd pairs).
Proof.
  induction 1 as [|p pairs Hp Hpairs IH]; [constructor|].
  cbn [map]. intros Hs. inversion Hs as [|? ? Hs' Hhd]; subst.
  constructor; [apply IH, Hs'|].
  destruct Hpairs as [|p' pairs Hp' _]; [constructor|].
  cbn [map] in *. inversion Hhd; subst. constructor.
  rewrite Hp, Hp'. assumption.
Qed.

Lemma fle_trans (a b c : float) : fle a b -> fle b c -> fle a c.
Proof. destruct a, b, c; cbn; try tauto. intros. lra. Qed.

Context (argsort : list Q -> list nat) (Hargsort : argsort_spec argsort).

Lemma sort_values_Permutation (frame : list A) :
  pd.sort_values argsort key frame ≡ₚ frame.
Proof.
  unfold pd.sort_values.
  destruct (Hargsort (map fst (pd.non_nans key frame))) as [Hperm _].
  rewrite Hperm, length_map, omap_lookup_seq.
  apply non_nans_nans_Permutation.
Qed.

Lemma sort_values_Sorted (frame : list A) :
  Sorted (fun a b => fle (key a) (key b)) (pd.sort_values argsort key frame).
Proof.
  unfold pd.sort_values.
  destruct (Hargsort (map fst (pd.non_nans key frame))) as [_ Hsorted].
  apply StronglySorted_Sorted, StronglySorted_app_2.
  - intros a b _ Hb. apply list_elem_of_filter in Hb as [Hb _].
    destruct (key b); [discriminate|]. destruct (key a); exact I.
  - apply Sorted_StronglySorted; [intros a b c; apply fle_trans|].
    rewrite omap_lookup_fmap. apply Sorted_keyed.
    + apply Forall_omap_lookup, non_nans_keys.
    + rewrite <- omap_lookup_fmap.
      erewrite list_omap_ext; [exact Hsorted|].
      apply Forall2_same_length_lookup_2; [reflexivity|].
      intros i a b Ha Hb. rewrite Ha in Hb. injection Hb as <-.
      symmetry. apply (list_lookup_fmap fst).
  - clear Hsorted. induction frame as [|r frame IH]; [constructor|].
    destruct (key r) as [q|] eqn:E.
    + rewrite filter_cons_False by (rewrite E; discriminate). exact IH.
    + rewrite filter_cons_True by (rewrite E; reflexivity).
      constructor; [exact IH|].
      apply Forall_forall. intros b Hb. apply list_elem_of_filter in Hb as [Hb _].
      rewrite E. destruct (key b); [discriminate|exact I].
Qed.

End sort_values.

(** The merge sort of the positions is an [argsort]. *)
#[local] Instance key_le_total : Total key_le.
Proof.
  intros a b. unfold key_le. destruct (Qlt_le_dec a.2 b.2); [left|right]; lra.
Qed.

Lemma Sorted_map_snd (l : list (nat * Q)) : Sorted key_le l -> Sorted Qle (map snd l).
Proof. apply (Sorted_fmap snd key_le Qle). intros x y H. exact H. Qed.

Lemma omap_lookup_positions {A : Type} (v : list A) (l : list (nat * A)) :
  Forall (fun p => v !! p.1 = Some p.2) l ->
  omap (fun i => v !! i) (map fst l) = map snd l.
Proof.
  induction 1 as [|p l Hp _ IH]; [reflexivity|].
  cbn [map omap list_omap]. rewrite Hp, IH. reflexivity.
Qed.

Lemma merge_argsort_spec : argsort_spec merge_argsort.
Proof.
  intros v. unfold merge_argsort. split.
  - rewrite merge_sort_Permutation.
    change (map fst (imap pair v)) with (fst <$> imap pair v).
    rewrite fmap_imap.
    rewrite (imap_ext _ (fun j _ => id j)) by done.
    rewrite imap_seq_0, list_fmap_id. reflexivity.
  - rewrite omap_lookup_positions.
    + apply Sorted_map_snd, Sorted_merge_sort, key_le_total.
    + apply Forall_forall. intros p Hp. rewrite merge_sort_Permutation in Hp.
      apply elem_of_lookup_imap_1 in Hp as (i & q & -> & Hi). exact Hi.
Qed.
(** ** Script runs *)

Lemma script_bind_emit {E B : Type} (e : E) (k : script E B) :
  (emit e;; k) = (e :: k.1, k.2).
Proof. reflexivity. Qed.

Lemma script_bind_lift_Ok {E A B : Type} (a : A) (k : A -> script E B) :
  (lift (Ok a) ≫= k) = k a.
Proof.
  cbv [mbind script_mbind script_bind lift fst snd app]. destruct (k a); reflexivity.
Qed.

Lemma for_Ok {E A : Type} (l : list A) (body : A -> script E unit)
    (evs : A -> list E) :
  Forall (fun a => body a = (evs a, Ok tt)) l ->
  for_ l body = (concat (map evs l), Ok tt).
Proof.
  unfold for_. induction 1 as [|a l Ha _ IH]; [reflexivity|].
  cbn [foldr map concat]. rewrite IH, Ha. reflexivity.
Qed.

Lemma for_imap_Ok {E T B : Type} (g : nat -> T -> B) (sols : list T)
    (body : B -> script E unit) (evs : nat -> T -> list E) :
  (forall i s, sols !! i = Some s -> body (g i s) = (evs i s, Ok tt)) ->
  for_ (imap g sols) body = (concat (imap evs sols), Ok tt).
Proof.
  revert g evs. induction sols as [|s sols IH]; intros g evs H; [reflexivity|].
  rewrite !imap_cons. unfold for_ in *. cbn [foldr concat].
  rewrite (IH (g ∘ S) (evs ∘ S)) by (intros i s' Hi; apply (H (S i)), Hi).
  rewrite (H 0%nat s eq_refl). reflexivity.
Qed.

Lemma enumerate_map {T A : Type} (f : T -> A) (sols : list T) :
  enumerate (map f sols) = imap (fun i s => (i, f s)) sols.
Proof. unfold enumerate. change map with (@fmap list _). apply imap_fmap. Qed.

Lemma V3_analysis_closed (table : list V3.Row)
    (sols : list (list bool * (Q * Q * Q))) :
  Forall (fun s => length s.1 = length table) sols ->
  V3.analysis table (result_v3 sols)
  = (V3.Print (V3.L_text "--- Optimal Solutions Analysis ---")
       :: concat (imap (fun i s =>
            [ V3.Print (V3.L_fleet (i + 1));
              V3.Print (V3.L_performance (Num s.2.1.1) (Num (100 - s.2.1.2))
                          (Num (- s.2.2)));
              V3.Print (V3.L_selected (length (selected s.1 table))
                          (map V3.trainsetId (selected s.1 table))) ]) sols)
       ++ [V3.Print (V3.L_text "----------------------------------")],
     Ok tt).
Proof.
  intros Hlen. unfold V3.analysis, result_v3. cbn [X F].
  rewrite script_bind_emit, script_bind_lift_Ok, enumerate_map.
  erewrite for_imap_Ok; [reflexivity|].
  intros i [b [[f1 f2] f3]] Hi. cbn [fst snd].
  rewrite threshold_encode.
  rewrite getitem_mask_selected
    by (rewrite Forall_forall in Hlen; apply (Hlen (b, (f1, f2, f3)));
        eapply list_elem_of_lookup_2, Hi).
  rewrite script_bind_lift_Ok.
  unfold V3.subscript, V3.getitem2, getitem.
  rewrite list_lookup_fmap, Hi. cbn. rewrite length_map.
  reflexivity.
Qed.


Lemma V2_print_results_closed (argsort : list Q -> list nat) (table : list V2.Row)
    (sols : list (list bool * (Q * Q))) :
  Forall (fun s => length s.1 = length table) sols ->
  V2.print_results argsort table (result_v2 sols)
  = ([ V2.Print (V2.L_text "--- Optimization Results ---");
       V2.Print (V2.L_eligible (length (filter
         (fun r => V2.job_card_open r = false /\
                   truth (V2.fitness_certificate_valid r) = true)
         table)));
       V2.Print (V2.L_found (length sols)) ]
       ++ concat (imap (fun i s =>
            [ V2.Print (V2.L_solution (i + 1));
              V2.Print (V2.L_cost (Num s.2.1));
              V2.Print (V2.L_punctuality (Num (100 - s.2.2)));
              V2.Print (V2.L_text "Selected Trains:");
              V2.Print (V2.L_selected_trains
                (map (fun r => (V2.trainsetId r, V2.mileage r, V2.punctuality_score r))
                     (pd.sort_values argsort V2.mileage (selected s.1 table)))) ]) sols),
     Ok tt).
Proof.
  intros Hlen. unfold V2.print_results, result_v2. cbn [X F].
  rewrite !script_bind_emit, script_bind_lift_Ok, script_bind_emit.
  rewrite zip_map_map, enumerate_map, length_map.
  erewrite for_imap_Ok; [reflexivity|].
  intros i [b [f1 f2]] Hi. cbn [fst snd].
  rewrite astype_bool_encode.
  rewrite getitem_mask_selected
    by (rewrite Forall_forall in Hlen; apply (Hlen (b, (f1, f2)));
        eapply list_elem_of_lookup_2, Hi).
  reflexivity.
Qed.

(** C7.  For every extracted solution, a bit-string with its stored
    objective values, the result extractor reports the identifiers of
    the units selected by the bit-string as an ordered list: in table
    order in the three-objective script and, in the two-objective one,
    in ascending order of mileage, the rows printed being the selected
    rows, each once.  It reports objective 2 as 100 minus the stored
    value and, in the three-objective script, objective 3 as the
    opposite of the stored value. *)
Theorem C7_result_extraction :
  (forall (table : list V3.Row) (sols : list (list bool * (Q * Q * Q))),
     Forall (fun s => length s.1 = length table) sols ->
     V3.analysis table (result_v3 sols)
     = (V3.Print (V3.L_text "--- Optimal Solutions Analysis ---")
          :: concat (imap (fun i s =>
               [ V3.Print (V3.L_fleet (i + 1));
                 V3.Print (V3.L_performance (Num s.2.1.1) (Num (100 - s.2.1.2))
                             (Num (- s.2.2)));
                 V3.Print (V3.L_selected (length (selected s.1 table))
                             (map V3.trainsetId (selected s.1 table))) ]) sols)
          ++ [V3.Print (V3.L_text "----------------------------------")],
        Ok tt)) /\
  (forall (argsort : list Q -> list nat) (table : list V2.Row)
          (sols : list (list bool * (Q * Q))),
     argsort_spec argsort ->
     Forall (fun s => length s.1 = length table) sols ->
     exists printed : list (list V2.Row),
       V2.print_results argsort table (result_v2 sols)
       = ([ V2.Print (V2.L_text "--- Optimization Results ---");
            V2.Print (V2.L_eligible (length (filter
              (fun r => V2.job_card_open r = false /\
                        truth (V2.fitness_certificate_valid r) = true)
              table)));
            V2.Print (V2.L_found (length sols)) ]
            ++ concat (zip_with (fun i_s rows =>
                 [ V2.Print (V2.L_solution (i_s.1 + 1));
                   V2.Print (V2.L_cost (Num i_s.2.2.1));
                   V2.Print (V2.L_punctuality (Num (100 - i_s.2.2.2)));
                   V2.Print (V2.L_text "Selected Trains:");
                   V2.Print (V2.L_selected_trains
                     (map (fun r => (V2.trainsetId r, V2.mileage r,
                                     V2.punctuality_score r)) rows)) ])
                 (enumerate sols) printed),
          Ok tt) /\
       Forall2 (fun s rows =>
           rows ≡ₚ selected s.1 table /\ Sorted V2.mileage_le rows)
         sols printed).
Proof.
  split.
  - apply V3_analysis_closed.
  - intros argsort table sols Hargsort Hlen.
    exists (map (fun s => pd.sort_values argsort V2.mileage (selected s.1 table)) sols).
    split.
    + rewrite V2_print_results_closed by exact Hlen. do 3 f_equal.
      unfold enumerate. clear Hlen.
      assert (H : forall (h : nat -> nat),
                imap (fun i s =>
                   [ V2.Print (V2.L_solution (h i + 1));
                     V2.Print (V2.L_cost (Num s.2.1));
                     V2.Print (V2.L_punctuality (Num (100 - s.2.2)));
                     V2.Print (V2.L_text "Selected Trains:");
                     V2.Print (V2.L_selected_trains
                       (map (fun r => (V2.trainsetId r, V2.mileage r,
                                       V2.punctuality_score r))
                          (pd.sort_values argsort V2.mileage (selected s.1 table)))) ])
                  sols
                = zip_with (fun i_s rows =>
                   [ V2.Print (V2.L_solution (i_s.1 + 1));
                     V2.Print (V2.L_cost (Num i_s.2.2.1));
                     V2.Print (V2.L_punctuality (Num (100 - i_s.2.2.2)));
                     V2.Print (V2.L_text "Selected Trains:");
                     V2.Print (V2.L_selected_trains
                       (map (fun r => (V2.trainsetId r, V2.mileage r,
                                       V2.punctuality_score r)) rows)) ])
                  (imap (fun i s => (h i, s)) sols)
                  (map (fun s => pd.sort_values argsort V2.mileage (selected s.1 table))
                     sols)).
      { induction sols as [|s sols IH]; intros h; [reflexivity|].
        rewrite !imap_cons. cbn [map zip_with fst snd]. f_equal.
        apply (IH (h ∘ S)). }
      apply (H id).
    + apply Forall2_map_r_diag, Forall_forall. intros s _. split.
      * apply sort_values_Permutation, Hargsort.
      * apply (sort_values_Sorted V2.mileage argsort Hargsort).
Qed.

(** C3.  When the optimiser returns no feasible solution ([res.X] is
    [None]) the two-objective script tests it and prints that no valid
    solution was found, and prints no solution; the three-objective
    script has no such test: after its header line the loop over
    [res.X] raises [TypeError], so no indication of infeasibility is
    printed and the closing line is not reached. *)
Theorem C3_no_feasible_v2_reports_v3_raises :
  (forall (argsort : list Q -> list nat) (table : list V2.Row),
     V2.print_results argsort table no_feasible
     = ([ V2.Print (V2.L_text "--- Optimization Results ---");
          V2.Print (V2.L_eligible (length (filter
            (fun r => V2.job_card_open r = false /\
                      truth (V2.fitness_certificate_valid r) = true)
            table)));
          V2.Print (V2.L_text
            "Could not find any valid solution. The constraints might still be too strict.") ],
        Ok tt)) /\
  (forall table : list V3.Row,
     V3.analysis table no_feasible
     = ([V3.Print (V3.L_text "--- Optimal Solutions Analysis ---")], Raise TypeError)).
Proof. split; reflexivity. Qed.

(** ** Loading the files *)











(** ** Fractional solution vectors *)





(** ** The theorems at the scenario *)

Lemma scenario_v2_is_fleet_table : fleet_table_v2 scenario_v2.
Proof. repeat constructor. Defined.


Lemma scenario_bits_columns : columns 5 scenario_bits.
Proof. repeat constructor. Defined.

Lemma scenario_x_columns : columns 5 scenario_x.
Proof. repeat constructor. Defined.

Lemma scenario_x_unit_interval : Forall (Forall (fun xi => 0 <= xi <= 1)) scenario_x.
Proof.
  repeat (constructor; try (split; apply Qle_bool_imp_le; reflexivity)).
Defined.

Lemma scenario_v2_bool_column : bool_column V2.fitness_certificate_valid scenario_v2.
Proof. repeat constructor. Defined.

Lemma scenario_v3_bool_column : bool_column V3.fitness_certificate_valid scenario_v3.
Proof. repeat constructor. Defined.

Lemma C1_objectives_witness :
  fleet_table_v2 scenario_v2 /\ columns (length scenario_v2) scenario_bits /\
  exists out' Fm,
    V2._evaluate (map encode scenario_bits) (V2.TrainSchedulingProblem scenario_v2, ∅)
      = Ok (V2.TrainSchedulingProblem scenario_v2, out') /\
    out' !! "F" = Some Fm /\
    Forall2 (fun b row =>
        Forall2 is_num row
          [ sum_over (fun u => to_Q (V2.mileage u)) (selected b scenario_v2);
            100 - mean_over (fun u => to_Q (V2.punctuality_score u))
                    (selected b scenario_v2) ])
      scenario_bits Fm.
Proof.
  split; [exact scenario_v2_is_fleet_table|].
  split; [exact scenario_bits_columns|].
  exact (proj1 (C1_objectives_wear_and_punctuality scenario_bits ∅) scenario_v2
           scenario_v2_is_fleet_table scenario_bits_columns).
Defined.

Lemma C2_constraint_vector_witness :
  columns (length scenario_v2) scenario_bits /\
  bool_column V2.fitness_certificate_valid scenario_v2 /\
  exists out' Gm,
    V2._evaluate (map encode scenario_bits) (V2.TrainSchedulingProblem scenario_v2, ∅)
      = Ok (V2.TrainSchedulingProblem scenario_v2, out') /\
    out' !! "G" = Some Gm /\
    Forall2 (fun b row =>
        exists g1 g2 g3, row = [Num g1; Num g2; Num g3] /\
          g1 == (Qlen (selected b scenario_v2) - N_TO_SELECT) ^ 2 /\
          g2 == count_flag V2.job_card_open true (selected b scenario_v2) /\
          g3 == count_flag (fun u => truth (V2.fitness_certificate_valid u)) false
                  (selected b scenario_v2))
      scenario_bits Gm.
Proof.
  split; [exact scenario_bits_columns|].
  split; [exact scenario_v2_bool_column|].
  destruct (proj1 (C2_constraint_vector scenario_bits ∅) scenario_v2
              scenario_bits_columns) as (out' & Gm & He & HG & HF).
  exists out', Gm. split; [exact He|]. split; [exact HG|].
  eapply Forall2_impl; [exact HF|].
  intros b row (g1 & g2 & g3 & Hr & H1 & H2 & H3 & _).
  exists g1, g2, g3. split; [exact Hr|]. split; [exact H1|]. split; [exact H2|].
  exact (H3 scenario_v2_bool_column).
Defined.


Lemma C5_constraints_sign_witness :
  Forall (Forall (fun xi => 0 <= xi <= 1)) scenario_x /\
  columns (length scenario_v3) scenario_x /\
  bool_column V3.fitness_certificate_valid scenario_v3 /\
  exists out' Gm,
    V3._evaluate scenario_x (V3.TrainSchedulingProblemV3 scenario_v3, ∅)
      = Ok (V3.TrainSchedulingProblemV3 scenario_v3, out') /\
    out' !! "G" = Some Gm /\
    Forall2 (fun row g =>
        exists g1 g2 g3, g = [Num g1; Num g2; Num g3] /\
          0 <= g1 /\ 0 <= g2 /\ 0 <= g3)
      scenario_x Gm.
Proof.
  split; [exact scenario_x_unit_interval|].
  split; [exact scenario_x_columns|].
  split; [exact scenario_v3_bool_column|].
  destruct (proj1 (proj2 (C5_constraints_sign scenario_x ∅ scenario_x_unit_interval))
              scenario_v3 scenario_x_columns) as (out' & Gm & He & HG & HF).
  exists out', Gm. split; [exact He|]. split; [exact HG|].
  eapply Forall2_impl; [exact HF|].
  intros row g (g1 & g2 & g3 & Hr & H1 & H2 & H3 & _).
  exists g1, g2, g3. split; [exact Hr|]. split; [exact H1|]. split; [exact H2|].
  exact (H3 scenario_v3_bool_column).
Defined.

Lemma C6_branding_objective_witness :
  columns (length scenario_v3) scenario_bits /\
  n_obj (V3.TrainSchedulingProblemV3 scenario_v3) = 3%nat /\
  exists out' Fm,
    V3._evaluate (map encode scenario_bits) (V3.TrainSchedulingProblemV3 scenario_v3, ∅)
      = Ok (V3.TrainSchedulingProblemV3 scenario_v3, out') /\
    out' !! "F" = Some Fm /\
    Forall2 (fun b row =>
        exists f1 f2 f3, row = [f1; f2; f3] /\
          is_num f3 (- sum_over V3.branding_priority_score (selected b scenario_v3)))
      scenario_bits Fm.
Proof.
  split; [exact scenario_bits_columns|].
  exact (proj1 (C6_branding_objective scenario_bits ∅) scenario_v3
           scenario_bits_columns).
Defined.

Lemma C7_result_extraction_witness :
  (Forall (fun s => length s.1 = length scenario_v3) scenario_solutions_v3 /\
   V3.analysis scenario_v3 (result_v3 scenario_solutions_v3)
   = ([ V3.Print (V3.L_text "--- Optimal Solutions Analysis ---");
        V3.Print (V3.L_fleet 1);
        V3.Print (V3.L_performance (Num 150) (Num 85) (Num 3));
        V3.Print (V3.L_selected 2 ["A"; "B"]);
        V3.Print (V3.L_text "----------------------------------") ],
      Ok tt)) /\
  argsort_spec merge_argsort /\
  Forall (fun s => length s.1 = length scenario_v2) scenario_solutions_v2 /\
  exists printed : list (list V2.Row),
    V2.print_results merge_argsort scenario_v2 (result_v2 scenario_solutions_v2)
    = ([ V2.Print (V2.L_text "--- Optimization Results ---");
         V2.Print (V2.L_eligible 3);
         V2.Print (V2.L_found 1) ]
         ++ concat (zip_with (fun i_s rows =>
              [ V2.Print (V2.L_solution (i_s.1 + 1));
                V2.Print (V2.L_cost (Num i_s.2.2.1));
                V2.Print (V2.L_punctuality (Num (100 - i_s.2.2.2)));
                V2.Print (V2.L_text "Selected Trains:");
                V2.Print (V2.L_selected_trains
                  (map (fun r => (V2.trainsetId r, V2.mileage r,
                                  V2.punctuality_score r)) rows)) ])
              (enumerate scenario_solutions_v2) printed),
       Ok tt) /\
    Forall2 (fun s rows =>
        rows ≡ₚ selected s.1 scenario_v2 /\ Sorted V2.mileage_le rows)
      scenario_solutions_v2 printed.
Proof.
  assert (H3 : Forall (fun s => length s.1 = length scenario_v3) scenario_solutions_v3)
    by (repeat constructor).
  assert (H2 : Forall (fun s => length s.1 = length scenario_v2) scenario_solutions_v2)
    by (repeat constructor).
  split; [split; [exact H3|]|split; [exact merge_argsort_spec|split; [exact H2|]]].
  - exact (proj1 C7_result_extraction scenario_v3 scenario_solutions_v3 H3).
  - exact (proj2 C7_result_extraction merge_argsort scenario_v2 scenario_solutions_v2
             merge_argsort_spec H2).
Defined.

Lemma C8_evaluation_idempotent_witness :
  columns (length (df (V2.TrainSchedulingProblem scenario_v2))) scenario_x /\
  exists st1,
    V2._evaluate scenario_x (V2.TrainSchedulingProblem scenario_v2, ∅) = Ok st1 /\
    st1.1 = V2.TrainSchedulingProblem scenario_v2 /\
    (forall n, Nat.iter n (fun r => r ≫= V2._evaluate scenario_x) (Ok st1) = Ok st1) /\
    (forall out0, exists st2,
       V2._evaluate scenario_x (V2.TrainSchedulingProblem scenario_v2, out0) = Ok st2 /\
       st2.2 !! "F" = st1.2 !! "F" /\ st2.2 !! "G" = st1.2 !! "G").
Proof.
  split; [exact scenario_x_columns|].
  exact (proj1 (C8_evaluation_idempotent scenario_x)
           (V2.TrainSchedulingProblem scenario_v2) ∅ scenario_x_columns).
Defined.


Lemma C10_punctuality_score_range_witness :
  100000 < 180000 /\
  pd.min (map V2.merged_mileage (V2.merge_frames scenario_trainsets scenario_health))
    = Num 100000 /\
  pd.max (map V2.merged_mileage (V2.merge_frames scenario_trainsets scenario_health))
    = Num 180000 /\
  exists table,
    V2.process release_downcast scenario_trainsets scenario_health = Ok table /\
    map V2.mileage table
    = map V2.merged_mileage (V2.merge_frames scenario_trainsets scenario_health) /\
    Forall (fun u => forall q, V2.mileage u = Num q ->
              exists s, V2.punctuality_score u = Num s /\
                rounded_2 (100 - 5 * ((q - 100000) / (180000 - 100000))) s /\
                95 <= s <= 100)
           table.
Proof.
  assert (Hlt : 100000 < 180000) by reflexivity.
  assert (Hmin : pd.min (map V2.merged_mileage
                           (V2.merge_frames scenario_trainsets scenario_health))
                 = Num 100000) by (vm_compute; reflexivity).
  assert (Hmax : pd.max (map V2.merged_mileage
                           (V2.merge_frames scenario_trainsets scenario_health))
                 = Num 180000) by (vm_compute; reflexivity).
  split; [exact Hlt|]. split; [exact Hmin|]. split; [exact Hmax|].
  exact (proj1 (C10_punctuality_score_range release_downcast 100000 180000 Hlt)
           scenario_trainsets scenario_health Hmin Hmax).
Defined.

(** ** The scenario evaluated *)

Example scenario_objectives_v2 :
  stored "F" (V2._evaluate (map encode scenario_bits)
                (V2.TrainSchedulingProblem scenario_v2, ∅))
  = Ok (Some [[Num 150; Num 15]; [Num 0; Num 100]]).
Proof. vm_compute. reflexivity. Qed.

Example scenario_constraints_v2 :
  stored "G" (V2._evaluate (map encode scenario_bits)
                (V2.TrainSchedulingProblem scenario_v2, ∅))
  = Ok (Some [[Num 169; Num 0; Num 0]; [Num 225; Num 0; Num 0]]).
Proof. vm_compute. reflexivity. Qed.

Example scenario_objectives_v3 :
  stored "F" (V3._evaluate (map encode scenario_bits)
                (V3.TrainSchedulingProblemV3 scenario_v3, ∅))
  = Ok (Some [[Num 150; Num 15; Num (-3)]; [Num 0; Num 100; Num 0]]).
Proof. vm_compute. reflexivity. Qed.

Example scenario_fractional_v3 :
  stored "F" (V3._evaluate scenario_x (V3.TrainSchedulingProblemV3 scenario_v3, ∅))
  = Ok (Some [[Num (345 # 2); Num 14; Num (- (19 # 4))]]).
Proof. vm_compute. reflexivity. Qed.

Example scenario_fractional_constraints_v3 :
  stored "G" (V3._evaluate scenario_x (V3.TrainSchedulingProblemV3 scenario_v3, ∅))
  = Ok (Some [[Num (625 # 4); Num 1; Num 0]]).
Proof. vm_compute. reflexivity. Qed.

Example evaluate_wrong_shape :
  V2._evaluate [[1; 0; 1]] (V2.TrainSchedulingProblem scenario_v2, ∅) = Raise ValueError.
Proof. vm_compute. reflexivity. Qed.

Example invert_elements :
  map np.invert [np_bool true; np_bool false; py_bool true; py_bool false]
  = [inl false; inl true; inr (-2)%Z; inr (-1)%Z].
Proof. reflexivity. Qed.

Example rint_ties_to_even :
  map rint [1 # 2; 3 # 2; 5 # 2; - (1 # 2); 7 # 4; - (7 # 4)] = [0; 2; 2; 0; 2; -2]%Z.
Proof. vm_compute. reflexivity. Qed.

Example round_two_decimals :
  map (fun q => Qred (Qround_decimals 2 q)) [1 # 3; 2 # 3; 15 # 1000; 25 # 1000; 9751 # 100]
  = [33 # 100; 67 # 100; 1 # 50; 1 # 50; 9751 # 100].
Proof. vm_compute. reflexivity. Qed.

(** The scenario files processed under a release that casts the filled
    column back to bool and under one that does not. *)
Example scenario_process :
  map (fun u => (V2.trainsetId u, V2.job_card_open u, V2.fitness_certificate_valid u,
                 normalise (V2.punctuality_score u)))
    <$> V2.process release_downcast scenario_trainsets scenario_health
  = Ok [ ("TS01", true, np_bool true, Num 100);
         ("TS02", false, np_bool true, Num 95);
         ("TS03", false, np_bool false, NaN) ].
Proof. vm_compute. reflexivity. Qed.

Example scenario_process_object_column :
  map (fun u => (V2.trainsetId u, V2.job_card_open u, V2.fitness_certificate_valid u,
                 normalise (V2.punctuality_score u)))
    <$> V2.process release_no_downcast scenario_trainsets scenario_health
  = Ok [ ("TS01", true, py_bool true, Num 100);
         ("TS02", false, py_bool true, Num 95);
         ("TS03", false, py_bool false, NaN) ].
Proof. vm_compute. reflexivity. Qed.

Example scenario_constraints_bool_column :
  stored "G"
    (table ← V2.process release_downcast scenario_trainsets scenario_health;
     V2._evaluate (map encode scenario_candidates) (V2.TrainSchedulingProblem table, ∅))
  = Ok (Some [[Num 169; Num 1; Num 0]; [Num 196; Num 0; Num 1]]).
Proof. vm_compute. reflexivity. Qed.

Example scenario_final_cleanup :
  map (fun u => (V3.trainsetId u, V3.fitness_certificate_valid u,
                 V3.branding_priority_score u, normalise (V3.punctuality_score u)))
    <$> V3.final_cleanup release_no_downcast pd.float64 scenario_merged
  = Ok [ ("TS01", py_bool true, 5 # 2, Num 100);
         ("TS02", py_bool true, 0, Num 95);
         ("TS03", py_bool false, 0, NaN) ].
Proof. vm_compute. reflexivity. Qed.

Example scenario_print_results_v2 :
  V2.print_results merge_argsort scenario_v2 (result_v2 scenario_solutions_v2)
  = ([ V2.Print (V2.L_text "--- Optimization Results ---");
       V2.Print (V2.L_eligible 3);
       V2.Print (V2.L_found 1);
       V2.Print (V2.L_solution 1);
       V2.Print (V2.L_cost (Num 150));
       V2.Print (V2.L_punctuality (Num (100 - 15)));
       V2.Print (V2.L_text "Selected Trains:");
       V2.Print (V2.L_selected_trains [("B", Num 50, Num 80); ("A", Num 100, Num 90)]) ],
     Ok tt).
Proof. vm_compute. reflexivity. Qed.

(** A reported plan beside the objective values of the fractional
    vector it was cut from. *)
Example scenario_fractional_report :
  V3.analysis scenario_v3
    (mkResult (Some [scenario_fractional])
              (Some [[Num (345 # 2); Num 14; Num (- (19 # 4))]]))
  = ([ V3.Print (V3.L_text "--- Optimal Solutions Analysis ---");
       V3.Print (V3.L_fleet 1);
       V3.Print (V3.L_performance (Num (345 # 2)) (Num (100 - 14))
                   (Num (- - (19 # 4))));
       V3.Print (V3.L_selected 2 ["B"; "C"]);
       V3.Print (V3.L_text "----------------------------------") ],
     Ok tt).
Proof. reflexivity. Qed.

Example scenario_missing_file :
  V2.main release_downcast merge_argsort
    (V2.mkFiles (pd.Table scenario_trainsets) pd.Absent) (fun _ => Ok no_feasible)
  = ([V2.Print V2.L_error_files], Raise SystemExit).
Proof. reflexivity. Qed.

Example scenario_file_without_header :
  V2.main release_downcast merge_argsort
    (V2.mkFiles pd.Blank pd.Absent) (fun _ => Ok no_feasible)
  = ([], Raise EmptyDataError).
Proof. reflexivity. Qed.

Example scenario_file_lacking_column :
  V2.main release_downcast merge_argsort
    (V2.mkFiles (pd.Table scenario_trainsets) pd.Lacking) (fun _ => Ok no_feasible)
  = ([], Raise KeyError).
Proof. reflexivity. Qed.

Example scenario_health_file_without_rows :
  V2.main release_downcast merge_argsort
    (V2.mkFiles (pd.Table scenario_trainsets) (pd.Table [])) (fun _ => Ok no_feasible)
  = ([], Raise TypeError).
Proof. reflexivity. Qed.
